(** * RemoveBackground: path validation, output-path resolution and
      error classification

    A shallow embedding of [remove_background] (src/removebg/core.py; the
    flat-layout copy src/removebg.py has the same body) and of the CLI
    [main] (src/removebg/cli.py; src/cli.py has the same body).

    The program is a thin shell around three libraries: [pathlib] for path
    arithmetic, [rembg] for the segmentation, [PIL] for decoding and
    writing.  [pathlib]'s pure path operations are modelled in module
    [Pathlib] (POSIX flavour, one-argument constructor); the file system,
    [rembg.remove], [Image.open] and [Image.save] are an interface
    ([Platform]) whose operations may raise any Python exception.

    The program is modelled twice.  The first model takes [os.stat] to
    answer and a print to succeed; the properties of path resolution and
    of the [try] block, which depend on neither, are proved on it.
    Module [Full] has the program with a failing [os.stat] and failing
    prints ([Faults]); it is the first model where nothing of the kind
    fails ([full_remove_background_eq], [full_main_eq]), and the
    properties of the exit codes and of what is printed are proved on
    it. *)

From Stdlib Require Import String Ascii List ZArith Lia Bool.
From Stdlib Require DecimalString.
Import ListNotations.
Local Open Scope string_scope.
Local Open Scope Z_scope.

(** ** Python [str] operations used by the program *)

Module Str.

(** [len(s)] *)
Definition len (s : string) : Z := Z.of_nat (String.length s).

(** [s[n:]] for [0 <= n] *)
Fixpoint drop (n : nat) (s : string) : string :=
  match n, s with
  | O, _ => s
  | S _, EmptyString => EmptyString
  | S k, String _ r => drop k r
  end.

(** [s[:n]] for [0 <= n] *)
Fixpoint take (n : nat) (s : string) : string :=
  match n, s with
  | O, _ => EmptyString
  | S _, EmptyString => EmptyString
  | S k, String c r => String c (take k r)
  end.

(** [s.rfind(c)]: the highest index of [c] in [s], or [-1]. *)
Fixpoint rfind (c : ascii) (s : string) : Z :=
  match s with
  | EmptyString => -1
  | String d r =>
      let k := rfind c r in
      if 0 <=? k then k + 1
      else if Ascii.eqb d c then 0 else -1
  end.

(** [c in s] *)
Fixpoint contains (c : ascii) (s : string) : bool :=
  match s with
  | EmptyString => false
  | String d r => Ascii.eqb d c || contains c r
  end.

(** [s.split(c)] *)
Fixpoint split (c : ascii) (s : string) : list string :=
  match s with
  | EmptyString => [EmptyString]
  | String d r =>
      if Ascii.eqb d c then EmptyString :: split c r
      else match split c r with
           | h :: t => String d h :: t
           | [] => [String d EmptyString]
           end
  end.

(** [c.join(l)] *)
Fixpoint join (c : ascii) (l : list string) : string :=
  match l with
  | [] => EmptyString
  | [x] => x
  | x :: t => x ++ String c (join c t)
  end.

(** [s.lstrip(c)] *)
Fixpoint lstrip (c : ascii) (s : string) : string :=
  match s with
  | EmptyString => EmptyString
  | String d r => if Ascii.eqb d c then lstrip c r else s
  end.

(** [s.startswith(c)] for a one-character [c] *)
Definition startswith (c : ascii) (s : string) : bool :=
  match s with
  | EmptyString => false
  | String d _ => Ascii.eqb d c
  end.

(** [s.endswith(t)] *)
Definition endswith (t s : string) : bool :=
  String.eqb (drop (String.length s - String.length t)%nat s) t
  && (String.length t <=? String.length s)%nat.

(** [str.lower] on one character.  Only the ASCII letters change: the
    program compares the result with ['.png'], and no character outside
    ASCII lowers to one of [.], [p], [n], [g]. *)
Definition lower_ascii (c : ascii) : ascii :=
  let n := nat_of_ascii c in
  if ((65 <=? n) && (n <=? 90))%nat then ascii_of_nat (n + 32) else c.

(** [s.lower()] *)
Fixpoint lower (s : string) : string :=
  match s with
  | EmptyString => EmptyString
  | String c r => String (lower_ascii c) (lower r)
  end.

End Str.

(** ** Python exceptions *)

Module Exc.

(** The exception classes the program names or can meet, with Python's
    class hierarchy.  [UnidentifiedImageError] is PIL's; the rest are
    built in.  [KeyboardInterrupt] and [SystemExit] derive from
    [BaseException] directly, not from [Exception]. *)
Inductive ExcClass : Type :=
| BaseException
| Exception
| OSError
| FileNotFoundError
| IsADirectoryError
| NotADirectoryError
| PermissionError
| UnidentifiedImageError
| ValueError
| UnicodeError
| MemoryError
| KeyboardInterrupt
| SystemExit.

Definition class_eqb (c d : ExcClass) : bool :=
  match c, d with
  | BaseException, BaseException | Exception, Exception
  | OSError, OSError | FileNotFoundError, FileNotFoundError
  | IsADirectoryError, IsADirectoryError
  | NotADirectoryError, NotADirectoryError
  | PermissionError, PermissionError
  | UnidentifiedImageError, UnidentifiedImageError
  | ValueError, ValueError | UnicodeError, UnicodeError
  | MemoryError, MemoryError | KeyboardInterrupt, KeyboardInterrupt
  | SystemExit, SystemExit => true
  | _, _ => false
  end.

(** The direct base class ([__base__]). *)
Definition base (c : ExcClass) : option ExcClass :=
  match c with
  | BaseException => None
  | Exception | KeyboardInterrupt | SystemExit => Some BaseException
  | OSError | ValueError | MemoryError => Some Exception
  | FileNotFoundError | IsADirectoryError | NotADirectoryError
  | PermissionError | UnidentifiedImageError => Some OSError
  | UnicodeError => Some ValueError
  end.

(** [issubclass(c, d)], walking the bases; the hierarchy is 4 deep. *)
Fixpoint issubclass_upto (fuel : nat) (c d : ExcClass) : bool :=
  class_eqb c d ||
  match fuel with
  | O => false
  | S k => match base c with
           | Some b => issubclass_upto k b d
           | None => false
           end
  end.

Definition issubclass : ExcClass -> ExcClass -> bool := issubclass_upto 4.

(** An exception object: its class and [str(e)]. *)
Record PyExc : Type := mkExc { exc_class : ExcClass; exc_msg : string }.

Definition isinstance (e : PyExc) (c : ExcClass) : bool :=
  issubclass (exc_class e) c.

(** The result of a call: a value, or a raised exception. *)
Inductive Outcome (A : Type) : Type :=
| Return (a : A)
| Raise (e : PyExc).
Arguments Return {A} a.
Arguments Raise {A} e.

End Exc.
Export Exc.

(** ** [pathlib.PurePosixPath]

    The pure path operations the program uses, as CPython 3.7 to 3.12
    (the versions setup.py lists) define them. *)

Module Pathlib.

Definition sep : ascii := "/"%char.
Definition dot : ascii := "."%char.

(** A parsed path: [_root] is [''], ['/'] or ['//']; [names] are the
    components after the root ([_parts] without its anchor). *)
Record PurePath : Type := mkPath { root : string; names : list string }.

(** [_PosixFlavour.splitroot], without the drive, which is always ['']. *)
Definition splitroot (part : string) : string * string :=
  if Str.startswith sep part then
    let stripped_part := Str.lstrip sep part in
    if Str.len part - Str.len stripped_part =? 2
    then ("//", stripped_part)
    else ("/", stripped_part)
  else ("", part).

(** A component is kept when it is neither empty nor ['.']. *)
Definition kept (x : string) : bool :=
  negb (String.eqb x "") && negb (String.eqb x ".").

(** [Path(s)]: [parse_parts] on one argument. *)
Definition Path (s : string) : PurePath :=
  let '(rt, rel) := splitroot s in
  mkPath rt (filter kept (Str.split sep rel)).

(** [_format_parsed_parts] and [__str__] *)
Definition format_parsed_parts (p : PurePath) : string :=
  root p ++ Str.join sep (names p).

Definition str (p : PurePath) : string :=
  let s := format_parsed_parts p in
  if String.eqb s "" then "." else s.

(** [p.name] *)
Definition name (p : PurePath) : string := last (names p) "".

(** [p.suffix] *)
Definition suffix (p : PurePath) : string :=
  let nm := name p in
  let i := Str.rfind dot nm in
  if (0 <? i) && (i <? Str.len nm - 1)
  then Str.drop (Z.to_nat i) nm
  else "".

(** [p.stem] *)
Definition stem (p : PurePath) : string :=
  let nm := name p in
  let i := Str.rfind dot nm in
  if (0 <? i) && (i <? Str.len nm - 1)
  then Str.take (Z.to_nat i) nm
  else nm.

(** [p.parent]: a path that is only an anchor, or empty, is its own
    parent. *)
Definition parent (p : PurePath) : PurePath :=
  match names p with
  | [] => p
  | _ => mkPath (root p) (removelast (names p))
  end.

(** [p / key]: an anchored right operand replaces the left one. *)
Definition truediv (p : PurePath) (key : string) : PurePath :=
  let q := Path key in
  if String.eqb (root q) "" then mkPath (root p) (names p ++ names q)
  else q.

(** [repr(p)], for the paths whose text holds no quote. *)
Definition repr (p : PurePath) : string :=
  "PosixPath('" ++ str p ++ "')".

(** [p.with_suffix(suffix)] *)
Definition with_suffix (p : PurePath) (sfx : string) : Outcome PurePath :=
  if Str.contains sep sfx then
    Raise (mkExc ValueError ("Invalid suffix '" ++ sfx ++ "'"))
  else if (negb (String.eqb sfx "") && negb (Str.startswith dot sfx))
          || String.eqb sfx "." then
    Raise (mkExc ValueError ("Invalid suffix '" ++ sfx ++ "'"))
  else
    let nm := name p in
    if String.eqb nm "" then
      Raise (mkExc ValueError (repr p ++ " has an empty name"))
    else
      let old_suffix := suffix p in
      let nm' :=
        if String.eqb old_suffix "" then nm ++ sfx
        else Str.take (String.length nm - String.length old_suffix)%nat nm
             ++ sfx in
      Return (mkPath (root p) (removelast (names p) ++ [nm'])).

(** A well-formed component, as parsing produces them. *)
Definition valid_name (x : string) : Prop :=
  kept x = true /\ Str.contains sep x = false.

(** A well-formed path. *)
Definition wf (p : PurePath) : Prop :=
  (root p = "" \/ root p = "/" \/ root p = "//") /\
  Forall valid_name (names p).

(** The path [p] with the suffix of its last component replaced. *)
Definition resuffixed (p : PurePath) (sfx : string) : PurePath :=
  mkPath (root p) (removelast (names p) ++ [stem p ++ sfx]).

(** The default output path of an input path. *)
Definition beside (p : PurePath) : PurePath :=
  mkPath (root p) (removelast (names p) ++ [stem p ++ "_nobg.png"]).

End Pathlib.

(** ** The outside world *)

(** What [os.stat] finds at a path (symbolic links followed). *)
Inductive FileKind : Type := Regular | Directory | Special.

Definition bytes : Type := list Byte.byte.

(** The collaborators the program calls.  [W] is the state of the world
    (the file system and whatever else the libraries touch); every
    operation but [stat] may change it and may raise. *)
Class Platform (W Image : Type) : Type := {
  (** [os.stat(path)]; [None] when the path cannot be resolved *)
  stat : W -> string -> option FileKind;
  (** [with open(path, 'rb') as f: f.read()] *)
  read_binary : string -> W -> Outcome bytes * W;
  (** [rembg.remove(data)] *)
  rembg_remove : bytes -> W -> Outcome bytes * W;
  (** [Image.open(BytesIO(data))] *)
  Image_open : bytes -> W -> Outcome Image * W;
  (** [image.save(path, 'PNG')] *)
  Image_save : Image -> string -> W -> Outcome unit * W
}.

(** The calls made on the platform, in order. *)
Inductive Event : Type :=
| EvStat (path : string)
| EvOpenRead (path : string)
| EvRemove
| EvImageOpen
| EvSave (path : string).

Section Program.

Context {W Image : Type} {P : Platform W Image}.

(** The state threaded through a run: the world, the log of platform
    calls, and the lines printed on the two streams. *)
Record State : Type := mkState {
  world : W;
  events : list Event;
  stdout : list string;
  stderr : list string
}.

Definition M (A : Type) : Type := State -> Outcome A * State.

Definition ret {A} (a : A) : M A := fun s => (Return a, s).
Definition raise {A} (e : PyExc) : M A := fun s => (Raise e, s).
Definition bind {A B} (m : M A) (k : A -> M B) : M B :=
  fun s => match m s with
           | (Return a, s') => k a s'
           | (Raise e, s') => (Raise e, s')
           end.
Definition lift {A} (o : Outcome A) : M A := fun s => (o, s).

Notation "x <- m ;; k" := (bind m (fun x => k))
  (at level 61, m at next level, right associativity).
Notation "m ;;; k" := (bind m (fun _ => k))
  (at level 61, right associativity).

(** The first clause whose class the exception is an instance of. *)
Fixpoint handler {A} (clauses : list (ExcClass * (PyExc -> M A)))
    (e : PyExc) : option (M A) :=
  match clauses with
  | [] => None
  | (c, h) :: rest => if isinstance e c then Some (h e) else handler rest e
  end.

(** [try: body except c1 as e: h1 except c2 as e: h2 ...] *)
Definition try_except {A} (body : M A)
    (clauses : list (ExcClass * (PyExc -> M A))) : M A :=
  fun s => match body s with
           | (Return a, s') => (Return a, s')
           | (Raise e, s') =>
               match handler clauses e with
               | Some h => h s'
               | None => (Raise e, s')
               end
           end.

Definition log (ev : Event) : M unit :=
  fun s => (Return tt, mkState (world s) (events s ++ [ev])
                               (stdout s) (stderr s)).

(** Run a platform operation on the world. *)
Definition call {A} (op : W -> Outcome A * W) : M A :=
  fun s => let '(r, w') := op (world s) in
           (r, mkState w' (events s) (stdout s) (stderr s)).

(** [print(line)] and [print(line, file=sys.stderr)]; writing to the
    two streams is taken to succeed here, module [Full] below has the
    case where it raises. *)
Definition print (line : string) : M unit :=
  fun s => (Return tt, mkState (world s) (events s)
                               (stdout s ++ [line]) (stderr s)).
Definition print_err (line : string) : M unit :=
  fun s => (Return tt, mkState (world s) (events s)
                               (stdout s) (stderr s ++ [line])).

(** [Path.exists] and [Path.is_file]: both stat [str(self)].  Here
    [os.stat] answers, with an entry or with none; module [Full] below
    has the case where it fails. *)
Definition exists_ (p : Pathlib.PurePath) : M bool :=
  log (EvStat (Pathlib.str p)) ;;;
  fun s => (Return (match stat (world s) (Pathlib.str p) with
                    | Some _ => true
                    | None => false
                    end), s).

Definition is_file (p : Pathlib.PurePath) : M bool :=
  log (EvStat (Pathlib.str p)) ;;;
  fun s => (Return (match stat (world s) (Pathlib.str p) with
                    | Some Regular => true
                    | _ => false
                    end), s).

(** *** src/removebg/core.py *)

(** Lines 69-76: the output path, from the two arguments alone. *)
Definition resolve_output_path (input_file : Pathlib.PurePath)
    (output_path : option string) : Outcome string :=
  match output_path with
  | None =>
      Return (Pathlib.str
                (Pathlib.truediv (Pathlib.parent input_file)
                   (Pathlib.stem input_file ++ "_nobg.png")))
  | Some given =>
      let output_file := Pathlib.Path given in
      if negb (String.eqb (Str.lower (Pathlib.suffix output_file)) ".png")
      then match Pathlib.with_suffix output_file ".png" with
           | Return q => Return (Pathlib.str q)
           | Raise e => Raise e
           end
      else Return given
  end.

(** Lines 79-91: the body of the [try]. *)
Definition process (input_path output_path : string) : M string :=
  input_data <- (log (EvOpenRead input_path) ;;;
                 call (read_binary input_path)) ;;
  output_data <- (log EvRemove ;;; call (rembg_remove input_data)) ;;
  output_image <- (log EvImageOpen ;;; call (Image_open output_data)) ;;
  (log (EvSave output_path) ;;;
   call (Image_save output_image output_path)) ;;;
  ret output_path.

(** Lines 93-94: [except Exception as e: raise ValueError(...)]. *)
Definition wrap_failure : list (ExcClass * (PyExc -> M string)) :=
  [(Exception,
    fun e => raise (mkExc ValueError
                      ("Failed to process image: " ++ exc_msg e)))].

Definition remove_background (input_path : string)
    (output_path : option string) : M string :=
  let input_file := Pathlib.Path input_path in
  found <- exists_ input_file ;;
  if negb found then
    raise (mkExc FileNotFoundError
             ("Input file not found: " ++ input_path))
  else
    isf <- is_file input_file ;;
    if negb isf then
      raise (mkExc ValueError
               ("Input path is not a file: " ++ input_path))
    else
      output_path <- lift (resolve_output_path input_file output_path) ;;
      try_except (process input_path output_path) wrap_failure.

(** *** src/removebg/cli.py *)

(** [args], as [parse_args] returns it. *)
Record Args : Type := mkArgs {
  input : string;
  output : option string;
  verbose : bool
}.

(** [traceback.print_exc()] writes the trace to standard error; one
    line stands for it here, [Full.print_exc] writes its lines. *)
Definition print_exc (e : PyExc) : M unit :=
  print_err ("Traceback (most recent call last): " ++ exc_msg e).

(** [main], after [parse_args]; [callee] is what the module-level name
    [remove_background] is bound to. *)
Definition main_with (callee : string -> option string -> M string)
    (args : Args) : M Z :=
  try_except
    ((if verbose args then print ("Processing: " ++ input args)
      else ret tt) ;;;
     output_path <- callee (input args) (output args) ;;
     print "Background removed successfully!" ;;;
     print ("Saved to: " ++ output_path) ;;;
     ret 0)
    [(FileNotFoundError,
      fun e => print_err ("Error: " ++ exc_msg e) ;;; ret 1);
     (ValueError,
      fun e => print_err ("Error: " ++ exc_msg e) ;;; ret 2);
     (Exception,
      fun e => print_err ("Unexpected error: " ++ exc_msg e) ;;;
               (if verbose args then print_exc e else ret tt) ;;;
               ret 3)].

Definition main : Args -> M Z := main_with remove_background.

(** The state once [evs] more platform calls are logged. *)
Definition logged (evs : list Event) (s : State) : State :=
  mkState (world s) (events s ++ evs) (stdout s) (stderr s).

(** The state in which the [try] block starts: the path was stat'ed
    twice, by [exists] and by [is_file]. *)
Definition validated (input_path : string) (s : State) : State :=
  let probe := EvStat (Pathlib.str (Pathlib.Path input_path)) in
  logged [probe; probe] s.

(** The state in which [remove_background] is called by [main]. *)
Definition banner (args : Args) (s : State) : State :=
  if verbose args
  then mkState (world s) (events s)
               (stdout s ++ ["Processing: " ++ input args]) (stderr s)
  else s.

(** A failure of the read/transform/decode/write phase, started in
    world [w]: the first of the four operations that raises, raises [e]
    and leaves the world [w']. *)
Inductive phase_failure (input_path output_path : string) (w : W)
    (e : PyExc) (w' : W) : Prop :=
| read_failure :
    read_binary input_path w = (Raise e, w') ->
    phase_failure input_path output_path w e w'
| transform_failure data w1 :
    read_binary input_path w = (Return data, w1) ->
    rembg_remove data w1 = (Raise e, w') ->
    phase_failure input_path output_path w e w'
| decode_failure data w1 result w2 :
    read_binary input_path w = (Return data, w1) ->
    rembg_remove data w1 = (Return result, w2) ->
    Image_open result w2 = (Raise e, w') ->
    phase_failure input_path output_path w e w'
| write_failure data w1 result w2 image w3 :
    read_binary input_path w = (Return data, w1) ->
    rembg_remove data w1 = (Return result, w2) ->
    Image_open result w2 = (Return image, w3) ->
    Image_save image output_path w3 = (Raise e, w') ->
    phase_failure input_path output_path w e w'.

(** The state [main] ends in, by exit code. *)
Definition reported (code : Z) (args : Args) (e : PyExc) (s : State)
    : State :=
  if code =? 3 then
    mkState (world s) (events s) (stdout s)
      (if verbose args
       then (stderr s ++ ["Unexpected error: " ++ exc_msg e])
            ++ ["Traceback (most recent call last): " ++ exc_msg e]
       else stderr s ++ ["Unexpected error: " ++ exc_msg e])
  else
    mkState (world s) (events s) (stdout s)
      (stderr s ++ ["Error: " ++ exc_msg e]).

End Program.

Arguments State W : clear implicits.
Arguments M W A : clear implicits.

(** ** A small concrete platform

    A file system as an association list from path text to node, a
    segmentation collaborator given as a parameter, images as their bytes.
    It instantiates [Platform] so that the program can be run. *)

Module Toy.

Inductive Node : Type :=
| File (content : bytes)
| Dir.

Definition FS : Type := list (string * Node).

Fixpoint lookup (fs : FS) (path : string) : option Node :=
  match fs with
  | [] => None
  | (p, n) :: rest => if String.eqb p path then Some n else lookup rest path
  end.

Definition toy_stat (fs : FS) (path : string) : option FileKind :=
  match lookup fs path with
  | Some (File _) => Some Regular
  | Some Dir => Some Directory
  | None => None
  end.

Definition toy_read (path : string) (fs : FS) : Outcome bytes * FS :=
  match lookup fs path with
  | Some (File c) => (Return c, fs)
  | Some Dir =>
      (Raise (mkExc IsADirectoryError
                ("[Errno 21] Is a directory: '" ++ path ++ "'")), fs)
  | None =>
      (Raise (mkExc FileNotFoundError
                ("[Errno 2] No such file or directory: '" ++ path ++ "'")),
       fs)
  end.

Definition toy_open (data : bytes) (fs : FS) : Outcome bytes * FS :=
  (Return data, fs).

Definition toy_save (img : bytes) (path : string) (fs : FS)
    : Outcome unit * FS :=
  (Return tt, (path, File img) :: fs).

Definition platform (remove : bytes -> Outcome bytes)
    : Platform FS bytes :=
  {| stat := toy_stat;
     read_binary := toy_read;
     rembg_remove := fun data fs => (remove data, fs);
     Image_open := toy_open;
     Image_save := toy_save |}.

(** The same machine when the input is deleted after it was stat'ed
    and before it is opened. *)
Definition vanishing : Platform FS bytes :=
  {| stat := toy_stat;
     read_binary := fun path fs =>
       (Raise (mkExc FileNotFoundError
                 ("[Errno 2] No such file or directory: '" ++ path ++ "'")),
        fs);
     rembg_remove := fun data fs => (Return data, fs);
     Image_open := toy_open;
     Image_save := toy_save |}.

(** Two collaborators: one that accepts data starting with the first
    byte of the PNG or JPEG signature and rejects the rest the way PIL
    does, and one interrupted from the keyboard while it runs. *)
Definition remove_ok (data : bytes) : Outcome bytes :=
  match data with
  | Byte.x89 :: _ | Byte.xff :: _ => Return (Byte.x89 :: data)
  | _ => Raise (mkExc UnidentifiedImageError "cannot identify image file")
  end.

Definition remove_interrupted (data : bytes) : Outcome bytes :=
  Raise (mkExc KeyboardInterrupt "").

Definition working : Platform FS bytes := platform remove_ok.
Definition interrupted : Platform FS bytes := platform remove_interrupted.

Definition photo : bytes := [Byte.xff; Byte.xd8; Byte.xff].
Definition notes : bytes := [Byte.x54; Byte.x68; Byte.x69; Byte.x73].

Definition disk : FS :=
  [("dir/photo.jpg", File photo); ("dir", Dir); ("notes.txt", File notes)].

Definition boot : State FS := mkState disk [] [] [].

(** Another machine: the same photo, nothing else, output already
    printed. *)
Definition other_boot : State FS :=
  mkState [("dir/photo.jpg", File [Byte.x89; Byte.x50])] []
          ["earlier line"] [].

End Toy.

(** ** More of the program: the script entry point and the tests' checks *)

Module Text.

(** [t in s] for two strings: [t] is the start of some tail of [s]. *)
Fixpoint occurs (t s : string) : bool :=
  String.prefix t s
  || match s with
     | EmptyString => false
     | String _ r => occurs t r
     end.

(** [str(n)] for an integer. *)
Definition str_int (n : Z) : string :=
  DecimalString.NilZero.string_of_int (Z.to_int n).

End Text.

Section Script.

Context {W Image : Type} {P : Platform W Image}.

Notation "x <- m ;; k" := (bind m (fun x => k))
  (at level 61, m at next level, right associativity).
Notation "m ;;; k" := (bind m (fun _ => k))
  (at level 61, right associativity).

(** [sys.exit(code)] raises [SystemExit(code)]. *)
Definition sys_exit {A} (code : Z) : M W A :=
  raise (mkExc SystemExit (Text.str_int code)).

(** src/removebg.py, lines 60-73: the module run as a script, on
    [sys.argv].  The two indexings are in range by the tests on
    [len(sys.argv)] that guard them. *)
Definition script (argv : list string) : M W unit :=
  (if Z.of_nat (length argv) <? 2 then
     print "Usage: python removebg.py <input_image> [output_image]" ;;;
     sys_exit 1
   else ret tt) ;;;
  let input_path := nth 1 argv "" in
  let output_path :=
    if 2 <? Z.of_nat (length argv) then Some (nth 2 argv "") else None in
  try_except
    (result <- remove_background input_path output_path ;;
     print ("Background removed successfully! Saved to: " ++ result))
    [(Exception,
      fun e => print_err ("Error: " ++ exc_msg e) ;;; sys_exit 1)].

(** The platform calls of a complete run, in order. *)
Definition calls (input_path output_path : string) : list Event :=
  let probe := EvStat (Pathlib.str (Pathlib.Path input_path)) in
  [probe; probe; EvOpenRead input_path; EvRemove; EvImageOpen;
   EvSave output_path].

(** The four steps of the [try] block all return, taking the world from
    [w] to [w']. *)
Inductive phase_success (input_path output_path : string) (w w' : W)
    : Prop :=
| all_steps data w1 result w2 image w3 :
    read_binary input_path w = (Return data, w1) ->
    rembg_remove data w1 = (Return result, w2) ->
    Image_open result w2 = (Return image, w3) ->
    Image_save image output_path w3 = (Return tt, w') ->
    phase_success input_path output_path w w'.

(** The state [s] with other text on the two streams. *)
Definition restream (out err : list string) (s : State W) : State W :=
  mkState (world s) (events s) out err.

End Script.

(** ** The program when [os.stat] and the prints can fail

    The definitions above take [os.stat] to answer (an entry of some kind,
    or none) and a print to succeed.  Neither is so in CPython:
    [Path.exists] and [Path.is_file] re-raise every [OSError] of
    [os.stat] but the four they read as absence (ENOENT, ENOTDIR, EBADF,
    ELOOP), for instance a name that is too long or a directory that may
    not be searched; and [print] raises when the stream cannot take the
    text, for instance [UnicodeEncodeError], a [ValueError], for a
    character outside the stream's encoding.  Module [Full] is the
    program again with both failures in it. *)

Inductive Stream : Type := Stdout | Stderr.

(** What can go wrong outside the four steps of the [try] block. *)
Class Faults (W : Type) : Type := {
  (** the error with which [os.stat(path)] fails, when it fails with one
      that [Path.exists] and [Path.is_file] re-raise *)
  stat_error : W -> string -> option PyExc;
  (** the exception that writing [line] to the stream raises, if any *)
  write_error : Stream -> string -> W -> option PyExc;
  (** the lines [traceback.print_exc()] writes for an exception *)
  traceback_lines : PyExc -> list string
}.

Section Steps.

Context {W Image : Type} {P : Platform W Image}.

(** The steps that returned, when [n] of the six platform calls of a run
    were made: each step is begun only after the one before it
    returned. *)
Definition steps_returned (input_path : string) (w : W) (n : nat) : Prop :=
  (4 <= n)%nat ->
  exists data w1,
    read_binary input_path w = (Return data, w1)
    /\ ((5 <= n)%nat ->
        exists result w2,
          rembg_remove data w1 = (Return result, w2)
          /\ ((6 <= n)%nat ->
              exists image w3,
                Image_open result w2 = (Return image, w3))).

End Steps.

(** The exit code the [except] clauses of [main] give an exception, when
    their own prints succeed; an exception no clause names goes on. *)
Definition exit_of (e : PyExc) : Outcome Z :=
  if isinstance e FileNotFoundError then Return 1
  else if isinstance e ValueError then Return 2
  else if isinstance e Exception then Return 3
  else Raise e.

Module Full.

Section Program.

Context {W Image : Type} {P : Platform W Image} {F : Faults W}.

Notation "x <- m ;; k" := (bind m (fun x => k))
  (at level 61, m at next level, right associativity).
Notation "m ;;; k" := (bind m (fun _ => k))
  (at level 61, right associativity).

(** [Path.exists]: [os.stat(str(self))]; an ignored error is absence,
    any other is re-raised. *)
Definition exists_ (p : Pathlib.PurePath) : M W bool :=
  log (EvStat (Pathlib.str p)) ;;;
  fun s => match stat_error (world s) (Pathlib.str p) with
           | Some e => (Raise e, s)
           | None =>
               (Return (match stat (world s) (Pathlib.str p) with
                        | Some _ => true
                        | None => false
                        end), s)
           end.

(** [Path.is_file], with the same handling of errors. *)
Definition is_file (p : Pathlib.PurePath) : M W bool :=
  log (EvStat (Pathlib.str p)) ;;;
  fun s => match stat_error (world s) (Pathlib.str p) with
           | Some e => (Raise e, s)
           | None =>
               (Return (match stat (world s) (Pathlib.str p) with
                        | Some Regular => true
                        | _ => false
                        end), s)
           end.

(** [print(line, file=stream)]: the line is on the stream, or the write
    raises and the stream is as it was. *)
Definition write (stream : Stream) (line : string) : M W unit :=
  fun s => match write_error stream line (world s) with
           | Some e => (Raise e, s)
           | None =>
               (Return tt,
                match stream with
                | Stdout => mkState (world s) (events s)
                                    (stdout s ++ [line]) (stderr s)
                | Stderr => mkState (world s) (events s)
                                    (stdout s) (stderr s ++ [line])
                end)
           end.

Definition print : string -> M W unit := write Stdout.
Definition print_err : string -> M W unit := write Stderr.

(** [traceback.print_exc()]: the lines of the trace, one write each, on
    standard error. *)
Fixpoint print_lines (lines : list string) : M W unit :=
  match lines with
  | [] => ret tt
  | line :: rest => print_err line ;;; print_lines rest
  end.

Definition print_exc (e : PyExc) : M W unit :=
  print_lines (traceback_lines e).

(** src/removebg/core.py, lines 59-94 *)
Definition remove_background (input_path : string)
    (output_path : option string) : M W string :=
  let input_file := Pathlib.Path input_path in
  found <- exists_ input_file ;;
  if negb found then
    raise (mkExc FileNotFoundError
             ("Input file not found: " ++ input_path))
  else
    isf <- is_file input_file ;;
    if negb isf then
      raise (mkExc ValueError
               ("Input path is not a file: " ++ input_path))
    else
      output_path <- lift (resolve_output_path input_file output_path) ;;
      try_except (process input_path output_path) wrap_failure.

(** src/removebg/cli.py, lines 70-81: the three [except] clauses. *)
Definition except_clauses (args : Args)
    : list (ExcClass * (PyExc -> M W Z)) :=
  [(FileNotFoundError,
    fun e => print_err ("Error: " ++ exc_msg e) ;;; ret 1);
   (ValueError,
    fun e => print_err ("Error: " ++ exc_msg e) ;;; ret 2);
   (Exception,
    fun e => print_err ("Unexpected error: " ++ exc_msg e) ;;;
             (if verbose args then print_exc e else ret tt) ;;;
             ret 3)].

(** src/removebg/cli.py, lines 59-81: [main], after [parse_args]. *)
Definition main_with (callee : string -> option string -> M W string)
    (args : Args) : M W Z :=
  try_except
    ((if verbose args then print ("Processing: " ++ input args)
      else ret tt) ;;;
     output_path <- callee (input args) (output args) ;;
     print "Background removed successfully!" ;;;
     print ("Saved to: " ++ output_path) ;;;
     ret 0)
    (except_clauses args).

Definition main : Args -> M W Z := main_with remove_background.

(** src/removebg.py, lines 60-73: the module run as a script. *)
Definition script (argv : list string) : M W unit :=
  (if Z.of_nat (length argv) <? 2 then
     print "Usage: python removebg.py <input_image> [output_image]" ;;;
     sys_exit 1
   else ret tt) ;;;
  let input_path := nth 1 argv "" in
  let output_path :=
    if 2 <? Z.of_nat (length argv) then Some (nth 2 argv "") else None in
  try_except
    (result <- remove_background input_path output_path ;;
     print ("Background removed successfully! Saved to: " ++ result))
    [(Exception,
      fun e => print_err ("Error: " ++ exc_msg e) ;;; sys_exit 1)].

(** What the [except] clauses do with an exception raised in the
    [try] block of [main]. *)
Definition handled (args : Args) (e : PyExc) : M W Z :=
  fun s => match handler (except_clauses args) e with
           | Some h => h s
           | None => (Raise e, s)
           end.

(** The error of the banner print, when there is a banner and it
    fails. *)
Definition banner_error (args : Args) (w : W) : option PyExc :=
  if verbose args
  then write_error Stdout ("Processing: " ++ input args) w
  else None.

(** What the [except] clause of the script does with an exception. *)
Definition script_caught (e : PyExc) (t : State W)
    : Outcome unit * State W :=
  if isinstance e Exception then
    match write_error Stderr ("Error: " ++ exc_msg e) (world t) with
    | Some e' => (Raise e', t)
    | None =>
        (Raise (mkExc SystemExit "1"),
         mkState (world t) (events t) (stdout t)
           (stderr t ++ [("Error: " ++ exc_msg e)%string])%list)
    end
  else (Raise e, t).

(** No write to standard error raises; no write to standard output
    raises. *)
Definition stderr_takes_all : Prop :=
  forall line (w : W), write_error Stderr line w = None.

Definition stdout_takes_all : Prop :=
  forall line (w : W), write_error Stdout line w = None.

End Program.

End Full.

(** The faults of a machine: a name longer than 255 bytes is refused by
    [os.stat], and the streams take ASCII only. *)
Module ToyFaults.

Fixpoint ascii_only (s : string) : bool :=
  match s with
  | EmptyString => true
  | String c r => (nat_of_ascii c <? 128)%nat && ascii_only r
  end.

Definition too_long (path : string) : option PyExc :=
  if (255 <? String.length path)%nat
  then Some (mkExc OSError "[Errno 36] File name too long")
  else None.

(** [UnicodeEncodeError] is a [UnicodeError], itself a [ValueError]. *)
Definition cannot_encode (line : string) : option PyExc :=
  if ascii_only line then None
  else Some (mkExc UnicodeError "'ascii' codec can't encode character").

Definition trace (e : PyExc) : list string :=
  ["Traceback (most recent call last):"; exc_msg e].

(** Nothing fails. *)
Definition none : Faults Toy.FS :=
  {| stat_error := fun _ _ => None;
     write_error := fun _ _ _ => None;
     traceback_lines := trace |}.

(** Standard output refuses what it cannot encode; standard error, which
    CPython opens with the [backslashreplace] handler, takes it. *)
Definition posix_c_locale : Faults Toy.FS :=
  {| stat_error := fun _ path => too_long path;
     write_error := fun stream line _ =>
       match stream with
       | Stdout => cannot_encode line
       | Stderr => None
       end;
     traceback_lines := trace |}.

Fixpoint letters (n : nat) : string :=
  match n with
  | O => EmptyString
  | S k => String "a" (letters k)
  end.

(** A name of 256 letters, and a name with a letter outside ASCII
    (U+00E9 in UTF-8). *)
Definition long_name : string := letters 256.
Definition cafe_png : string :=
  "caf" ++ String (ascii_of_nat 195) (String (ascii_of_nat 169) ".png").

End ToyFaults.

(** ** Facts about the string operations *)

Module StrFacts.
Import Str.

Lemma len_nonneg s : 0 <= len s.
Proof. unfold len; lia. Qed.

Lemma len_cons c s : len (String c s) = len s + 1.
Proof. unfold len; cbn [String.length]; lia. Qed.

Lemma length_app s t :
  String.length (s ++ t) = (String.length s + String.length t)%nat.
Proof. induction s as [|c s IH]; cbn; [reflexivity | now rewrite IH]. Qed.

Lemma take_drop n s : take n s ++ drop n s = s.
Proof.
  revert s; induction n as [|n IH]; intros [|c s]; cbn; try reflexivity.
  now rewrite IH.
Qed.

Lemma take_app_length s t : take (String.length s) (s ++ t) = s.
Proof. induction s as [|c s IH]; cbn; [now destruct t | now rewrite IH]. Qed.

Lemma drop_app_length s t : drop (String.length s) (s ++ t) = t.
Proof. induction s as [|c s IH]; cbn; [reflexivity | exact IH]. Qed.

Lemma contains_app c s t :
  contains c (s ++ t) = contains c s || contains c t.
Proof.
  induction s as [|d s IH]; cbn; [reflexivity|].
  now rewrite IH, orb_assoc.
Qed.

Lemma contains_take c n s :
  contains c s = false -> contains c (take n s) = false.
Proof.
  revert s; induction n as [|n IH]; intros [|d s]; cbn; try reflexivity.
  intros H; apply orb_false_iff in H as [Hd Hs].
  now rewrite Hd, IH.
Qed.

Lemma rfind_range c s : -1 <= rfind c s < len s.
Proof.
  induction s as [|d s IH]; [cbn; unfold len; cbn; lia|].
  rewrite len_cons; cbn [rfind].
  destruct (0 <=? rfind c s) eqn:E; [lia|].
  destruct (Ascii.eqb d c); pose proof (len_nonneg s); lia.
Qed.

Lemma rfind_absent c s : contains c s = false -> rfind c s = -1.
Proof.
  induction s as [|d s IH]; cbn; [reflexivity|].
  intros H; apply orb_false_iff in H as [Hd Hs].
  rewrite (IH Hs), Hd; reflexivity.
Qed.

(** The last occurrence of [c] in [s ++ c :: t], when [t] has none, is
    at [len s]. *)
Lemma rfind_app_last c s t :
  contains c t = false -> rfind c (s ++ String c t) = len s.
Proof.
  intros Ht; induction s as [|d s IH].
  - cbn. rewrite (rfind_absent _ _ Ht), Ascii.eqb_refl; reflexivity.
  - cbn [append rfind]. rewrite IH, len_cons.
    pose proof (len_nonneg s).
    destruct (0 <=? len s) eqn:E; [reflexivity | apply Z.leb_gt in E; lia].
Qed.

Lemma split_nonempty c s : split c s <> [].
Proof.
  destruct s as [|d s]; cbn; [discriminate|].
  destruct (Ascii.eqb d c); [discriminate|].
  destruct (split c s); discriminate.
Qed.

Lemma split_absent c s : contains c s = false -> split c s = [s].
Proof.
  induction s as [|d s IH]; cbn; [reflexivity|].
  intros H; apply orb_false_iff in H as [Hd Hs].
  now rewrite Hd, (IH Hs).
Qed.

Lemma split_app_sep c x r :
  contains c x = false -> split c (x ++ String c r) = x :: split c r.
Proof.
  induction x as [|d x IH]; cbn.
  - now rewrite Ascii.eqb_refl.
  - intros H; apply orb_false_iff in H as [Hd Hx].
    now rewrite Hd, (IH Hx).
Qed.

(** The pieces of a split hold no separator. *)
Lemma split_pieces c s : Forall (fun x => contains c x = false) (split c s).
Proof.
  induction s as [|d s IH]; cbn.
  - repeat constructor.
  - destruct (Ascii.eqb d c) eqn:E.
    + constructor; [reflexivity | exact IH].
    + destruct (split c s) as [|h t]; [repeat constructor; cbn; now rewrite E|].
      inversion IH as [|? ? Hh Ht]; subst.
      constructor; [cbn; now rewrite E, Hh | exact Ht].
Qed.

Lemma split_join c l :
  l <> [] -> Forall (fun x => contains c x = false) l ->
  split c (join c l) = l.
Proof.
  induction l as [|x l IH]; [congruence|].
  intros _ H; inversion H as [|? ? Hx Hl]; subst.
  destruct l as [|y l].
  - cbn. now apply split_absent.
  - change (join c (x :: y :: l)) with (x ++ String c (join c (y :: l))).
    rewrite (split_app_sep _ _ _ Hx), IH;
      [reflexivity | discriminate | exact Hl].
Qed.

End StrFacts.

(** ** Facts about the path operations *)

Module PathlibFacts.
Import Str StrFacts Pathlib.

Lemma valid_name_head x :
  valid_name x -> exists c r, x = String c r /\ Ascii.eqb c sep = false.
Proof.
  intros [Hk Hs]; destruct x as [|c r]; [discriminate|].
  exists c, r; split; [reflexivity|].
  cbn in Hs; now apply orb_false_iff in Hs.
Qed.

Lemma filter_kept_valid l :
  Forall (fun x => contains sep x = false) l ->
  Forall valid_name (filter kept l).
Proof.
  induction 1 as [|x l Hx _ IH]; cbn; [constructor|].
  destruct (kept x) eqn:E; [|exact IH].
  constructor; [split; assumption | exact IH].
Qed.

Lemma filter_kept_id l : Forall valid_name l -> filter kept l = l.
Proof.
  induction 1 as [|x l [Hk _] _ IH]; cbn; [reflexivity|].
  now rewrite Hk, IH.
Qed.

Lemma splitroot_root s :
  fst (splitroot s) = "" \/ fst (splitroot s) = "/"
  \/ fst (splitroot s) = "//".
Proof.
  unfold splitroot; destruct (startswith sep s); [|now left].
  destruct (_ =? 2); cbn; auto.
Qed.

Lemma Path_wf s : wf (Path s).
Proof.
  unfold Path; pose proof (splitroot_root s) as Hr.
  destruct (splitroot s) as [rt rel]; split; [exact Hr|].
  apply filter_kept_valid, split_pieces.
Qed.

Lemma join_head l :
  Forall valid_name l -> l <> [] ->
  exists c r, join sep l = String c r /\ Ascii.eqb c sep = false.
Proof.
  intros H Hl; destruct l as [|x l]; [congruence|].
  inversion H as [|? ? Hx _]; subst.
  destruct (valid_name_head _ Hx) as (c & r & -> & Hc).
  destruct l as [|y l]; cbn; eauto.
Qed.

Lemma names_no_sep l :
  Forall valid_name l -> Forall (fun x => contains sep x = false) l.
Proof. apply Forall_impl; now intros x [_ H]. Qed.

(** Parsing the joined components gives them back. *)
Lemma parse_join l :
  Forall valid_name l -> filter kept (split sep (join sep l)) = l.
Proof.
  intros H; destruct l as [|x l]; [reflexivity|].
  rewrite split_join;
    [now apply filter_kept_id | discriminate | now apply names_no_sep].
Qed.

Lemma lstrip_join l :
  Forall valid_name l -> lstrip sep (join sep l) = join sep l.
Proof.
  intros H; destruct l as [|x l]; [reflexivity|].
  destruct (join_head (x :: l) H) as (c & r & E & Hc); [discriminate|].
  rewrite E; cbn; now rewrite Hc.
Qed.

(** [Path(str(p)) == p] *)
Lemma Path_str p : wf p -> Path (str p) = p.
Proof.
  destruct p as [rt l]; intros [Hr Hl]; cbn in Hr, Hl.
  unfold str, format_parsed_parts; cbn [root names].
  destruct Hr as [-> | [-> | ->]].
  - destruct l as [|x l]; [reflexivity|].
    destruct (join_head (x :: l) Hl) as (c & r & E & Hc); [discriminate|].
    cbn [append]. rewrite E. cbn [String.eqb].
    unfold Path, splitroot. cbn [startswith]. rewrite Hc, <- E.
    now rewrite parse_join.
  - change ("/" ++ join sep l) with (String sep (join sep l)).
    cbn [String.eqb]. unfold Path, splitroot.
    cbn [startswith lstrip]. rewrite Ascii.eqb_refl.
    rewrite (lstrip_join l Hl), len_cons.
    replace (len (join sep l) + 1 - len (join sep l) =? 2) with false
      by (symmetry; apply Z.eqb_neq; lia).
    now rewrite parse_join.
  - change ("//" ++ join sep l) with (String sep (String sep (join sep l))).
    cbn [String.eqb]. unfold Path, splitroot.
    cbn [startswith lstrip]. rewrite !Ascii.eqb_refl.
    rewrite (lstrip_join l Hl), !len_cons.
    replace (len (join sep l) + 1 + 1 - len (join sep l) =? 2) with true
      by (symmetry; apply Z.eqb_eq; lia).
    now rewrite parse_join.
Qed.

Lemma Path_single x : valid_name x -> Path x = mkPath "" [x].
Proof.
  intros Hx.
  assert (W : wf (mkPath "" [x])) by (split; [now left | now constructor]).
  rewrite <- (Path_str _ W); f_equal.
  unfold str, format_parsed_parts; cbn.
  destruct (valid_name_head _ Hx) as (c & r & -> & _); reflexivity.
Qed.

Lemma last_In (l : list string) d : l <> [] -> In (last l d) l.
Proof.
  induction l as [|x l IH]; [congruence|]; intros _.
  destruct l as [|y l]; [now left | right; apply IH; discriminate].
Qed.

Lemma name_valid p : wf p -> name p = "" \/ valid_name (name p).
Proof.
  intros [_ H]; unfold name.
  destruct (names p) as [|x l] eqn:E; [now left | right].
  rewrite Forall_forall in H; apply H, last_In; discriminate.
Qed.

Lemma name_snoc rt l x : name (mkPath rt (l ++ [x])) = x.
Proof. unfold name; cbn; apply last_last. Qed.

Lemma name_empty_iff p : wf p -> (name p = "" <-> names p = []).
Proof.
  intros Hw; split; intros H; [|unfold name; now rewrite H].
  destruct (names p) as [|x l] eqn:E; [reflexivity | exfalso].
  destruct Hw as [_ Hl]; rewrite Forall_forall in Hl.
  assert (Hin : In (name p) (names p))
    by (unfold name; rewrite E; apply last_In; discriminate).
  destruct (Hl _ Hin) as [Hk _]; rewrite H in Hk; discriminate.
Qed.

Lemma app_empty_r s : s ++ "" = s.
Proof. induction s as [|c s IH]; cbn; [reflexivity | now rewrite IH]. Qed.

(** A name splits into its stem and its suffix. *)
Lemma stem_suffix p : name p = stem p ++ suffix p.
Proof.
  unfold stem, suffix.
  destruct ((0 <? _) && _);
    [symmetry; apply take_drop | now rewrite app_empty_r].
Qed.

Lemma stem_no_sep p : wf p -> contains sep (stem p) = false.
Proof.
  intros Hw; destruct (name_valid p Hw) as [E | [_ Hs]].
  - unfold stem; rewrite E; reflexivity.
  - unfold stem; destruct ((0 <? _) && _); [now apply contains_take | exact Hs].
Qed.

(** The suffix and the stem of a component [b ++ ".png"], [b] not
    empty. *)
Lemma rfind_png b : rfind dot (b ++ ".png") = len b.
Proof. apply (rfind_app_last dot b "png"); reflexivity. Qed.

Lemma len_app s t : len (s ++ t) = len s + len t.
Proof. unfold len; rewrite length_app; lia. Qed.

Lemma png_cut b :
  b <> "" ->
  (0 <? rfind dot (b ++ ".png"))
  && (rfind dot (b ++ ".png") <? len (b ++ ".png") - 1) = true.
Proof.
  intros Hb; rewrite rfind_png, len_app.
  assert (0 < len b).
  { destruct b as [|c b]; [congruence|].
    rewrite len_cons; pose proof (len_nonneg b); lia. }
  change (len ".png") with 4.
  apply andb_true_iff; split; apply Z.ltb_lt; lia.
Qed.

Lemma suffix_png p b : name p = b ++ ".png" -> b <> "" -> suffix p = ".png".
Proof.
  intros E Hb; unfold suffix; rewrite E, (png_cut b Hb), rfind_png.
  unfold len; rewrite Nat2Z.id; apply drop_app_length.
Qed.

Lemma stem_png p b : name p = b ++ ".png" -> b <> "" -> stem p = b.
Proof.
  intros E Hb; unfold stem; rewrite E, (png_cut b Hb), rfind_png.
  unfold len; rewrite Nat2Z.id; apply take_app_length.
Qed.

Lemma kept_long x : (2 <= String.length x)%nat -> kept x = true.
Proof.
  destruct x as [|c [|d x]]; cbn [String.length]; try lia; intros _.
  unfold kept; cbn. now destruct (Ascii.eqb c ".").
Qed.

Lemma png_name_valid b : contains sep b = false -> valid_name (b ++ ".png").
Proof.
  intros Hs; split.
  - apply kept_long; rewrite length_app; cbn; lia.
  - rewrite contains_app, Hs; reflexivity.
Qed.

Lemma wf_snoc rt l x :
  wf (mkPath rt l) -> valid_name x -> wf (mkPath rt (l ++ [x])).
Proof.
  intros [Hr Hl] Hx; split; [exact Hr|]; cbn in *.
  apply Forall_app; split; [exact Hl | now constructor].
Qed.

Lemma wf_removelast p : wf p -> wf (mkPath (root p) (removelast (names p))).
Proof.
  intros [Hr Hl]; split; [exact Hr|]; cbn.
  rewrite Forall_forall in *; intros x Hx; apply Hl.
  destruct (names p) as [|y l] eqn:E; [contradiction|].
  rewrite (@app_removelast_last _ (y :: l) "") by discriminate.
  apply in_or_app; now left.
Qed.

Lemma parent_eq p : parent p = mkPath (root p) (removelast (names p)).
Proof. unfold parent; destruct p as [rt [|x l]]; reflexivity. Qed.

(** Joining a single well-formed component appends it. *)
Lemma truediv_single p x :
  valid_name x -> truediv p x = mkPath (root p) (names p ++ [x]).
Proof. intros Hx; unfold truediv; now rewrite (Path_single x Hx). Qed.

Lemma parent_snoc rt l x : parent (mkPath rt (l ++ [x])) = mkPath rt l.
Proof. rewrite parent_eq; cbn; now rewrite removelast_last. Qed.

End PathlibFacts.

(** ** Output-path resolution *)

Module ResolveFacts.
Import Str StrFacts Pathlib PathlibFacts.

Lemma app_assoc' (a b c : string) : (a ++ b) ++ c = a ++ b ++ c.
Proof. induction a as [|x a IH]; cbn; [reflexivity | now rewrite IH]. Qed.

Lemma length_take_stem p :
  (String.length (name p) - String.length (suffix p))%nat
  = String.length (stem p).
Proof.
  rewrite (stem_suffix p) at 1; rewrite length_app; lia.
Qed.

Lemma with_suffix_png p :
  name p <> "" -> with_suffix p ".png" = Return (resuffixed p ".png").
Proof.
  intros Hn; unfold with_suffix.
  cbn [contains startswith String.eqb Ascii.eqb Bool.eqb sep dot orb andb negb].
  apply String.eqb_neq in Hn; rewrite Hn.
  unfold resuffixed; do 3 f_equal.
  destruct (String.eqb (suffix p) "") eqn:E.
  - apply String.eqb_eq in E.
    rewrite (stem_suffix p) at 1; now rewrite E, app_empty_r.
  - rewrite length_take_stem, (stem_suffix p) at 1.
    now rewrite take_app_length.
Qed.

Lemma with_suffix_no_name p :
  name p = "" ->
  with_suffix p ".png"
  = Raise (mkExc ValueError (repr p ++ " has an empty name")).
Proof.
  intros Hn; unfold with_suffix.
  cbn [contains startswith String.eqb Ascii.eqb Bool.eqb sep dot orb andb negb].
  now rewrite Hn.
Qed.

Lemma stem_nonempty p : name p <> "" -> stem p <> "".
Proof.
  intros Hn; unfold stem.
  destruct ((0 <? rfind dot (name p)) && _) eqn:E; [|exact Hn].
  apply andb_true_iff in E as [E _]; apply Z.ltb_lt in E.
  destruct (name p) as [|c r]; [congruence|].
  destruct (Z.to_nat (rfind dot (String c r))) eqn:En; [lia | discriminate].
Qed.

Lemma resuffixed_wf p : wf p -> wf (resuffixed p ".png").
Proof.
  intros Hw; unfold resuffixed.
  apply wf_snoc; [now apply wf_removelast|].
  apply png_name_valid, stem_no_sep, Hw.
Qed.

Lemma beside_name p : stem p ++ "_nobg.png" = (stem p ++ "_nobg") ++ ".png".
Proof. now rewrite app_assoc'. Qed.

Lemma beside_valid p : wf p -> valid_name (stem p ++ "_nobg.png").
Proof.
  intros Hw; rewrite beside_name; apply png_name_valid.
  rewrite contains_app, (stem_no_sep p Hw); reflexivity.
Qed.

Lemma beside_wf p : wf p -> wf (beside p).
Proof.
  intros Hw; apply wf_snoc; [now apply wf_removelast | now apply beside_valid].
Qed.

Lemma beside_eq p :
  wf p -> truediv (parent p) (stem p ++ "_nobg.png") = beside p.
Proof.
  intros Hw; rewrite (truediv_single _ _ (beside_valid p Hw)), parent_eq.
  reflexivity.
Qed.

Lemma nobg_nonempty s : s ++ "_nobg" <> "".
Proof. destruct s; discriminate. Qed.

(** What the two computed paths look like once printed and read back. *)
Lemma beside_facts p :
  wf p ->
  Path (str (beside p)) = beside p /\
  name (beside p) = stem p ++ "_nobg.png" /\
  parent (beside p) = parent p /\
  suffix (beside p) = ".png".
Proof.
  intros Hw; split; [apply Path_str, beside_wf, Hw|].
  unfold beside; rewrite name_snoc, parent_snoc, parent_eq.
  repeat split.
  apply (suffix_png _ (stem p ++ "_nobg"));
    [rewrite name_snoc; apply beside_name | apply nobg_nonempty].
Qed.

Lemma resuffixed_facts p :
  wf p -> name p <> "" ->
  Path (str (resuffixed p ".png")) = resuffixed p ".png" /\
  name (resuffixed p ".png") = stem p ++ ".png" /\
  parent (resuffixed p ".png") = parent p /\
  stem (resuffixed p ".png") = stem p /\
  suffix (resuffixed p ".png") = ".png".
Proof.
  intros Hw Hn; split; [apply Path_str, resuffixed_wf, Hw|].
  pose proof (stem_nonempty p Hn) as Hs.
  unfold resuffixed; rewrite name_snoc, parent_snoc, parent_eq.
  repeat split.
  - apply stem_png; [apply name_snoc | exact Hs].
  - apply (suffix_png _ (stem p)); [apply name_snoc | exact Hs].
Qed.

Lemma resolve_default p :
  wf p -> resolve_output_path p None = Return (str (beside p)).
Proof. intros Hw; cbn; now rewrite beside_eq. Qed.

Lemma resolve_given_png p given :
  lower (suffix (Path given)) = ".png" ->
  resolve_output_path p (Some given) = Return given.
Proof.
  intros H; cbn [resolve_output_path].
  apply String.eqb_eq in H; now rewrite H.
Qed.

Lemma resolve_given_other p given :
  lower (suffix (Path given)) <> ".png" -> name (Path given) <> "" ->
  resolve_output_path p (Some given)
  = Return (str (resuffixed (Path given) ".png")).
Proof.
  intros H Hn; cbn [resolve_output_path].
  apply String.eqb_neq in H; rewrite H; cbn [negb].
  now rewrite with_suffix_png.
Qed.

Lemma resolve_given_no_name p given :
  lower (suffix (Path given)) <> ".png" -> name (Path given) = "" ->
  resolve_output_path p (Some given)
  = Raise (mkExc ValueError (repr (Path given) ++ " has an empty name")).
Proof.
  intros H Hn; cbn [resolve_output_path].
  apply String.eqb_neq in H; rewrite H; cbn [negb].
  now rewrite with_suffix_no_name.
Qed.

(** Whatever is resolved has suffix [.png] up to case, and exactly
    [.png] unless it is the caller's own text. *)
Lemma resolve_suffix p output out :
  wf p -> resolve_output_path p output = Return out ->
  lower (suffix (Path out)) = ".png" /\
  (suffix (Path out) = ".png" \/ output = Some out).
Proof.
  intros Hw; destruct output as [given|].
  - destruct (string_dec (lower (suffix (Path given))) ".png") as [E|E].
    + rewrite (resolve_given_png _ _ E); intros [= <-]; auto.
    + destruct (string_dec (name (Path given)) "") as [Hn|Hn].
      * now rewrite (resolve_given_no_name _ _ E Hn).
      * rewrite (resolve_given_other _ _ E Hn); intros [= <-].
        destruct (resuffixed_facts _ (Path_wf given) Hn)
          as (-> & _ & _ & _ & ->).
        auto.
  - rewrite (resolve_default _ Hw); intros [= <-].
    destruct (beside_facts _ Hw) as (-> & _ & _ & ->); auto.
Qed.

Lemma resolve_raises p output e :
  resolve_output_path p output = Raise e -> exc_class e = ValueError.
Proof.
  destruct output as [given|]; [|discriminate].
  destruct (string_dec (lower (suffix (Path given))) ".png") as [E|E].
  - now rewrite (resolve_given_png _ _ E).
  - destruct (string_dec (name (Path given)) "") as [Hn|Hn].
    + rewrite (resolve_given_no_name _ _ E Hn); now intros [= <-].
    + now rewrite (resolve_given_other _ _ E Hn).
Qed.

End ResolveFacts.

(** ** Runs of the program *)

Section Runs.

Context {W Image : Type} {P : Platform W Image}.
Import Pathlib PathlibFacts ResolveFacts.

Lemma world_logged evs (s : State W) : world (logged evs s) = world s.
Proof. reflexivity. Qed.

Lemma world_banner args (s : State W) :
  world (banner args s) = world s.
Proof. unfold banner; now destruct (verbose args). Qed.

Lemma logged_logged a b (s : State W) :
  logged a (logged b s) = logged (b ++ a) s.
Proof. unfold logged; cbn; now rewrite app_assoc. Qed.

Lemma exists_run p s :
  exists_ p s
  = (Return (match stat (world s) (str p) with
             | Some _ => true
             | None => false
             end), logged [EvStat (str p)] s).
Proof. reflexivity. Qed.

Lemma is_file_run p s :
  is_file p s
  = (Return (match stat (world s) (str p) with
             | Some Regular => true
             | _ => false
             end), logged [EvStat (str p)] s).
Proof. reflexivity. Qed.

Lemma remove_background_missing input_path output_path s :
  stat (world s) (str (Path input_path)) = None ->
  remove_background input_path output_path s
  = (Raise (mkExc FileNotFoundError
              ("Input file not found: " ++ input_path)),
     logged [EvStat (str (Path input_path))] s).
Proof.
  intros H; unfold remove_background, bind.
  now rewrite exists_run, H.
Qed.

Lemma remove_background_not_file input_path output_path s k :
  stat (world s) (str (Path input_path)) = Some k -> k <> Regular ->
  remove_background input_path output_path s
  = (Raise (mkExc ValueError
              ("Input path is not a file: " ++ input_path)),
     validated input_path s).
Proof.
  intros H Hk; unfold remove_background, bind.
  rewrite exists_run, H; cbn [negb].
  rewrite is_file_run, world_logged, H, logged_logged.
  destruct k; [congruence | reflexivity | reflexivity].
Qed.

Lemma remove_background_validated input_path output_path s :
  stat (world s) (str (Path input_path)) = Some Regular ->
  remove_background input_path output_path s
  = match resolve_output_path (Path input_path) output_path with
    | Return out =>
        try_except (process input_path out) wrap_failure
          (validated input_path s)
    | Raise e => (Raise e, validated input_path s)
    end.
Proof.
  intros H; unfold remove_background, bind.
  rewrite exists_run, H; cbn [negb].
  rewrite is_file_run, world_logged, H, logged_logged; cbn [negb].
  unfold lift; now destruct (resolve_output_path _ _).
Qed.

(** The [try] block returns the output path it was given. *)
Lemma process_returns input_path out s p s' :
  process input_path out s = (Return p, s') -> p = out.
Proof.
  unfold process, bind, log, call, ret; cbn.
  destruct (read_binary _ _) as [[d|e] w1]; [|discriminate]; cbn.
  destruct (rembg_remove _ _) as [[r|e] w2]; [|discriminate]; cbn.
  destruct (Image_open _ _) as [[i|e] w3]; [|discriminate]; cbn.
  destruct (Image_save _ _ _) as [[[]|e] w4]; [|discriminate]; cbn.
  now intros [= <- _].
Qed.

(** The [try] block raises exactly when the phase fails. *)
Lemma process_raises input_path out s e s' :
  process input_path out s = (Raise e, s') ->
  phase_failure input_path out (world s) e (world s').
Proof.
  unfold process, bind, log, call, ret; cbn.
  destruct (read_binary _ _) as [[d|e1] w1] eqn:E1; cbn;
    [|intros [= <- <-]; now apply read_failure].
  destruct (rembg_remove _ _) as [[r|e2] w2] eqn:E2; cbn;
    [|intros [= <- <-]; eapply transform_failure; eauto].
  destruct (Image_open _ _) as [[i|e3] w3] eqn:E3; cbn;
    [|intros [= <- <-]; eapply decode_failure; eauto].
  destruct (Image_save _ _ _) as [[[]|e4] w4] eqn:E4; cbn;
    [discriminate | intros [= <- <-]; eapply write_failure; eauto].
Qed.

Lemma phase_failure_raises input_path out s e w' :
  phase_failure input_path out (world s) e w' ->
  exists s', process input_path out s = (Raise e, s') /\ world s' = w'.
Proof.
  intros H; unfold process, bind, log, call, ret; cbn.
  destruct H as [H1 | d w1 H1 H2 | d w1 r w2 H1 H2 H3
                | d w1 r w2 i w3 H1 H2 H3 H4].
  - rewrite H1; eauto.
  - rewrite H1; cbn; rewrite H2; eauto.
  - rewrite H1; cbn; rewrite H2; cbn; rewrite H3; eauto.
  - rewrite H1; cbn; rewrite H2; cbn; rewrite H3; cbn; rewrite H4; eauto.
Qed.

(** [try: ... except Exception as e: raise ValueError(...)] *)
Lemma wrapped_run (body : M W string) s :
  try_except body wrap_failure s
  = match body s with
    | (Return p, s') => (Return p, s')
    | (Raise e, s') =>
        if isinstance e Exception
        then (Raise (mkExc ValueError
                       ("Failed to process image: " ++ exc_msg e)), s')
        else (Raise e, s')
    end.
Proof.
  unfold try_except; destruct (body s) as [[p|e] s']; [reflexivity|].
  unfold wrap_failure; cbn [handler]; now destruct (isinstance e Exception).
Qed.

Lemma main_with_run (callee : string -> option string -> M W string)
    args s :
  main_with callee args s
  = match callee (input args) (output args) (banner args s) with
    | (Return p, s') =>
        (Return 0,
         mkState (world s') (events s')
           ((stdout s' ++ ["Background removed successfully!"])
            ++ ["Saved to: " ++ p]) (stderr s'))
    | (Raise e, s') =>
        if isinstance e FileNotFoundError then (Return 1, reported 1 args e s')
        else if isinstance e ValueError then (Return 2, reported 2 args e s')
        else if isinstance e Exception then (Return 3, reported 3 args e s')
        else (Raise e, s')
    end.
Proof.
  unfold main_with, try_except, bind, banner, print, print_err, print_exc, ret.
  destruct (verbose args) eqn:V; cbn [world events stdout stderr];
    destruct (callee _ _ _) as [[p|e] s']; try reflexivity;
    cbn [handler];
    destruct (isinstance e FileNotFoundError); try reflexivity;
    destruct (isinstance e ValueError); try reflexivity;
    destruct (isinstance e Exception); try reflexivity;
    unfold reported; cbn; now rewrite ?V.
Qed.

Lemma not_Exception_uncaught e :
  isinstance e Exception = false ->
  isinstance e FileNotFoundError = false /\ isinstance e ValueError = false.
Proof. destruct e as [[] m]; cbn; intros H; now try discriminate H. Qed.

Lemma ValueError_exit e :
  exc_class e = ValueError ->
  isinstance e FileNotFoundError = false /\ isinstance e ValueError = true.
Proof. destruct e as [c m]; cbn; intros ->; now split. Qed.

End Runs.

(** ** What a run returns and what it raises *)

Section Claims.

Context {W Image : Type} {P : Platform W Image}.
Import Pathlib PathlibFacts ResolveFacts.

(** A run that returns went through validation and resolution. *)
Lemma returned_path input_path output_path s p s' :
  remove_background input_path output_path s = (Return p, s') ->
  stat (world s) (str (Path input_path)) = Some Regular /\
  resolve_output_path (Path input_path) output_path = Return p.
Proof.
  intros H.
  destruct (stat (world s) (str (Path input_path))) as [k|] eqn:E;
    [|now rewrite (remove_background_missing _ _ _ E) in H].
  assert (k = Regular) as ->.
  { destruct k; [reflexivity | |];
      now rewrite (remove_background_not_file _ _ _ _ E) in H. }
  split; [reflexivity|].
  rewrite (remove_background_validated _ _ _ E) in H.
  destruct (resolve_output_path _ _) as [out|e]; [|discriminate].
  rewrite wrapped_run in H.
  destruct (process _ _ _) as [[q|e] s2] eqn:Ep.
  - apply process_returns in Ep; congruence.
  - now destruct (isinstance e Exception).
Qed.

(** Every error the phase raises is re-raised as [ValueError] with the
    cause's text after the fixed prefix. *)
Lemma processing_failure_wrapped input_path output_path out s e w' :
  stat (world s) (str (Path input_path)) = Some Regular ->
  resolve_output_path (Path input_path) output_path = Return out ->
  phase_failure input_path out (world s) e w' ->
  isinstance e Exception = true ->
  exists s',
    remove_background input_path output_path s
    = (Raise (mkExc ValueError ("Failed to process image: " ++ exc_msg e)),
       s')
    /\ world s' = w'.
Proof.
  intros Hs Hr Hf He.
  rewrite (remove_background_validated _ _ _ Hs), Hr, wrapped_run.
  destruct (phase_failure_raises _ _ (validated input_path s) _ _ Hf)
    as (s' & -> & Hw).
  rewrite He; eauto.
Qed.

(** What [remove_background] can raise. *)
Lemma raised_classes input_path output_path s e s' :
  remove_background input_path output_path s = (Raise e, s') ->
  (exc_class e = FileNotFoundError
   /\ stat (world s) (str (Path input_path)) = None)
  \/ exc_class e = ValueError
  \/ (isinstance e Exception = false
      /\ exists out, phase_failure input_path out (world s) e (world s')).
Proof.
  intros H.
  destruct (stat (world s) (str (Path input_path))) as [k|] eqn:E.
  - right.
    destruct k;
      [|rewrite (remove_background_not_file _ _ _ _ E) in H by discriminate;
        left; now injection H as <- _ ..].
    rewrite (remove_background_validated _ _ _ E) in H.
    destruct (resolve_output_path _ _) as [out|e0] eqn:Er.
    + rewrite wrapped_run in H.
      destruct (process _ _ _) as [[q|e0] s2] eqn:Ep; [discriminate|].
      destruct (isinstance e0 Exception) eqn:Ei.
      * left; now injection H as <- _.
      * right; injection H as <- <-; split; [exact Ei|].
        exists out; apply (process_raises _ _ _ _ _ Ep).
    + left; injection H as <- _; exact (resolve_raises _ _ _ Er).
  - left; rewrite (remove_background_missing _ _ _ E) in H.
    now injection H as <- _.
Qed.

End Claims.

(** ** The properties of the specification *)

Section Theorems.

Context {W Image : Type} {P : Platform W Image}.
Import Pathlib PathlibFacts ResolveFacts.

(** C1, as amended.  The path a successful run returns has a suffix
    that lowers to [.png]; the suffix is [.png] itself whenever the
    returned path is not the caller's own text passed through, in
    particular whenever no output path was given. *)
Theorem returned_suffix_png_up_to_case input_path output_path s p s' :
  remove_background input_path output_path s = (Return p, s') ->
  Str.lower (suffix (Path p)) = ".png"
  /\ (suffix (Path p) = ".png" \/ output_path = Some p)
  /\ (output_path = None -> suffix (Path p) = ".png").
Proof.
  intros H; apply returned_path in H as [_ Hr].
  destruct (resolve_suffix _ _ _ (Path_wf input_path) Hr) as [Hl Hs].
  repeat split; [exact Hl | exact Hs|].
  intros ->; destruct Hs as [Hs | Hs]; [exact Hs | discriminate].
Qed.


(** C5.  For an existing regular file and no output path, the [try]
    block runs with, and a successful run returns, the text of
    [input.parent / (input.stem + "_nobg.png")]: a path whose parent is
    the input's parent and whose name is the input's stem followed by
    [_nobg.png], the stem being the input's name without its suffix. *)
Theorem default_output_beside_input input_path s :
  stat (world s) (str (Path input_path)) = Some Regular ->
  let input_file := Path input_path in
  let out := str (truediv (parent input_file)
                    (stem input_file ++ "_nobg.png")) in
  remove_background input_path None s
  = try_except (process input_path out) wrap_failure
      (validated input_path s)
  /\ (forall p s',
        remove_background input_path None s = (Return p, s') -> p = out)
  /\ parent (Path out) = parent input_file
  /\ name (Path out) = stem input_file ++ "_nobg.png"
  /\ name input_file = stem input_file ++ suffix input_file.
Proof.
  intros H input_file out.
  pose proof (Path_wf input_path) as Hw.
  split; [now rewrite (remove_background_validated _ _ _ H)|].
  split; [|split; [|split]].
  - intros p s' R; apply returned_path in R as [_ R]; cbn in R.
    now injection R as <-.
  - subst out input_file; rewrite (beside_eq _ Hw).
    now destruct (beside_facts _ Hw) as (-> & _ & Hp & _).
  - subst out input_file; rewrite (beside_eq _ Hw).
    now destruct (beside_facts _ Hw) as (-> & Hn & _).
  - apply stem_suffix.
Qed.

(** C6, as amended.  For an existing regular file and a given output
    path: when the suffix of its last component lowers to [.png] the
    [try] block runs with the given text unchanged; otherwise, when the
    path has a last component, it runs with the text of the path whose
    last component has its suffix replaced by [.png] (appended when
    there was none), the stem and the parent kept; otherwise
    [ValueError] is raised before anything is opened. *)
Theorem given_output_resolution input_path given s :
  stat (world s) (str (Path input_path)) = Some Regular ->
  let output_file := Path given in
  (Str.lower (suffix output_file) = ".png" ->
   remove_background input_path (Some given) s
   = try_except (process input_path given) wrap_failure
       (validated input_path s))
  /\ (Str.lower (suffix output_file) <> ".png" ->
      name output_file <> "" ->
      let out := str (resuffixed output_file ".png") in
      remove_background input_path (Some given) s
      = try_except (process input_path out) wrap_failure
          (validated input_path s)
      /\ name output_file = stem output_file ++ suffix output_file
      /\ name (Path out) = stem output_file ++ ".png"
      /\ stem (Path out) = stem output_file
      /\ suffix (Path out) = ".png"
      /\ parent (Path out) = parent output_file)
  /\ (Str.lower (suffix output_file) <> ".png" ->
      name output_file = "" ->
      remove_background input_path (Some given) s
      = (Raise (mkExc ValueError
                  (repr output_file ++ " has an empty name")),
         validated input_path s)).
Proof.
  intros H output_file; subst output_file.
  rewrite (remove_background_validated _ _ _ H).
  split; [|split].
  - intros E; now rewrite (resolve_given_png _ _ E).
  - intros E Hn out; subst out.
    rewrite (resolve_given_other _ _ E Hn).
    destruct (resuffixed_facts _ (Path_wf given) Hn)
      as (-> & Hname & Hparent & Hstem & Hsuffix).
    repeat split; try assumption; apply stem_suffix.
  - intros E Hn; now rewrite (resolve_given_no_name _ _ E Hn).
Qed.


(** C9.  When validation fails, [remove_background] raises
    [FileNotFoundError] or [ValueError] having made no platform call
    but [stat] on the input path: no file was opened or saved, the
    world and both output streams are as they were. *)
Theorem validation_failure_touches_nothing input_path output_path s :
  stat (world s) (str (Path input_path)) <> Some Regular ->
  exists e evs,
    remove_background input_path output_path s = (Raise e, logged evs s)
    /\ Forall (fun ev => ev = EvStat (str (Path input_path))) evs
    /\ (exc_class e = FileNotFoundError \/ exc_class e = ValueError)
    /\ world (snd (remove_background input_path output_path s)) = world s.
Proof.
  intros H.
  destruct (stat (world s) (str (Path input_path))) as [k|] eqn:E.
  - assert (Hk : k <> Regular) by congruence.
    rewrite (remove_background_not_file _ _ _ _ E Hk).
    eexists _, _; split; [reflexivity|].
    split; [repeat constructor | split; [now right | reflexivity]].
  - rewrite (remove_background_missing _ _ _ E).
    eexists _, _; split; [reflexivity|].
    split; [repeat constructor | split; [now left | reflexivity]].
Qed.

End Theorems.

(** C10.  Two successful runs on the same two arguments, in any two
    worlds on any two platforms, return the same path, which is the value
    of [resolve_output_path] on the arguments. *)
Theorem output_path_from_arguments_alone
    {W1 I1 : Type} {P1 : Platform W1 I1} {W2 I2 : Type} {P2 : Platform W2 I2}
    input_path output_path (s1 s1' : State W1) (s2 s2' : State W2) p1 p2 :
  remove_background input_path output_path s1 = (Return p1, s1') ->
  remove_background input_path output_path s2 = (Return p2, s2') ->
  p1 = p2
  /\ resolve_output_path (Pathlib.Path input_path) output_path = Return p1.
Proof.
  intros H1 H2.
  apply returned_path in H1 as [_ H1]; apply returned_path in H2 as [_ H2].
  split; [congruence | exact H1].
Qed.

(** ** The theorems at concrete runs *)

Module Examples.
Import Pathlib ResolveFacts Toy.

(** A caller-supplied [out.PNG] is returned as it is: the suffix of the
    returned path is [.PNG]. *)
Lemma uppercase_suffix_returned :
  exists p s',
    remove_background (P := working) "dir/photo.jpg" (Some "out.PNG") boot
    = (Return p, s')
    /\ suffix (Path p) = ".PNG"
    /\ suffix (Path p) <> ".png".
Proof.
  eexists _, _; split; [vm_compute; reflexivity|].
  split; [reflexivity | discriminate].
Qed.

Lemma returned_suffix_png_up_to_case_witness :
  remove_background (P := working) "dir/photo.jpg" (Some "out.jpg") boot
  = (Return "out.png",
     snd (remove_background (P := working) "dir/photo.jpg"
            (Some "out.jpg") boot))
  /\ Str.lower (suffix (Path "out.png")) = ".png"
  /\ (suffix (Path "out.png") = ".png" \/ Some "out.jpg" = Some "out.png")
  /\ (Some "out.jpg" = None -> suffix (Path "out.png") = ".png").
Proof.
  assert (R : remove_background (P := working) "dir/photo.jpg"
                (Some "out.jpg") boot
              = (Return "out.png",
                 snd (remove_background (P := working) "dir/photo.jpg"
                        (Some "out.jpg") boot)))
    by (vm_compute; reflexivity).
  split; [exact R|].
  exact (returned_suffix_png_up_to_case (P := working) _ _ _ _ _ R).
Defined.


Lemma default_output_beside_input_witness :
  stat (Platform := working) (world boot) (str (Path "dir/photo.jpg"))
  = Some Regular
  /\ (forall p s',
        remove_background (P := working) "dir/photo.jpg" None boot
        = (Return p, s') ->
        p = "dir/photo_nobg.png")
  /\ parent (Path "dir/photo_nobg.png") = parent (Path "dir/photo.jpg")
  /\ name (Path "dir/photo_nobg.png") = "photo_nobg.png"
  /\ name (Path "dir/photo.jpg") = "photo" ++ ".jpg".
Proof.
  assert (H : stat (Platform := working) (world boot)
                (str (Path "dir/photo.jpg")) = Some Regular) by reflexivity.
  split; [exact H|].
  exact (proj2 (default_output_beside_input (P := working)
                  "dir/photo.jpg" boot H)).
Defined.

(** [.png] ends in [.png] and is not passed through; the empty path has
    no suffix and none is put. *)
Lemma dotfile_and_empty_outputs :
  (Str.endswith ".png" (Str.lower ".png") = true
   /\ fst (remove_background (P := working) "dir/photo.jpg" (Some ".png")
             boot)
      = Return ".png.png"
   /\ ".png.png" <> ".png")
  /\ (Str.endswith ".png" (Str.lower "") = false
      /\ fst (remove_background (P := working) "dir/photo.jpg" (Some "")
                boot)
         = Raise (mkExc ValueError "PosixPath('.') has an empty name")).
Proof.
  repeat split; try (vm_compute; reflexivity). discriminate.
Qed.

Lemma given_output_resolution_witness :
  stat (Platform := working) (world boot) (str (Path "dir/photo.jpg"))
  = Some Regular
  /\ (Str.lower (suffix (Path "a/out.PNG")) = ".png"
      /\ fst (remove_background (P := working) "dir/photo.jpg"
                (Some "a/out.PNG") boot) = Return "a/out.PNG")
  /\ (Str.lower (suffix (Path "a//out.tar.jpg")) <> ".png"
      /\ name (Path "a//out.tar.jpg") <> ""
      /\ fst (remove_background (P := working) "dir/photo.jpg"
                (Some "a//out.tar.jpg") boot) = Return "a/out.tar.png")
  /\ (Str.lower (suffix (Path "/")) <> ".png"
      /\ name (Path "/") = ""
      /\ fst (remove_background (P := working) "dir/photo.jpg"
                (Some "/") boot)
         = Raise (mkExc ValueError "PosixPath('/') has an empty name")).
Proof.
  assert (H : stat (Platform := working) (world boot)
                (str (Path "dir/photo.jpg")) = Some Regular) by reflexivity.
  split; [exact H|].
  split; [|split].
  - assert (E : Str.lower (suffix (Path "a/out.PNG")) = ".png")
      by reflexivity.
    split; [exact E|].
    rewrite (proj1 (given_output_resolution (P := working)
                      "dir/photo.jpg" "a/out.PNG" boot H) E).
    vm_compute; reflexivity.
  - assert (E : Str.lower (suffix (Path "a//out.tar.jpg")) <> ".png")
      by discriminate.
    assert (N : name (Path "a//out.tar.jpg") <> "") by discriminate.
    split; [exact E|]. split; [exact N|].
    rewrite (proj1 (proj1 (proj2 (given_output_resolution (P := working)
                      "dir/photo.jpg" "a//out.tar.jpg" boot H)) E N)).
    vm_compute; reflexivity.
  - assert (E : Str.lower (suffix (Path "/")) <> ".png") by discriminate.
    assert (N : name (Path "/") = "") by reflexivity.
    split; [exact E|]. split; [exact N|].
    rewrite (proj2 (proj2 (given_output_resolution (P := working)
                      "dir/photo.jpg" "/" boot H)) E N).
    reflexivity.
Defined.


Lemma validation_failure_touches_nothing_witness :
  stat (Platform := working) (world boot) (str (Path "dir")) <> Some Regular
  /\ exists e evs,
       remove_background (P := working) "dir" None boot
       = (Raise e, logged evs boot)
       /\ Forall (fun ev => ev = EvStat (str (Path "dir"))) evs
       /\ (exc_class e = FileNotFoundError \/ exc_class e = ValueError)
       /\ world (snd (remove_background (P := working) "dir" None boot))
          = world boot.
Proof.
  assert (H : stat (Platform := working) (world boot) (str (Path "dir"))
              <> Some Regular) by discriminate.
  split; [exact H|].
  exact (validation_failure_touches_nothing (P := working)
           "dir" None boot H).
Defined.

Lemma output_path_from_arguments_alone_witness :
  remove_background (P := working) "dir/photo.jpg" (Some "x.jpeg") boot
  = (Return "x.png",
     snd (remove_background (P := working) "dir/photo.jpg"
            (Some "x.jpeg") boot))
  /\ remove_background (P := working) "dir/photo.jpg" (Some "x.jpeg")
       other_boot
     = (Return "x.png",
        snd (remove_background (P := working) "dir/photo.jpg"
               (Some "x.jpeg") other_boot))
  /\ "x.png" = "x.png"
  /\ resolve_output_path (Path "dir/photo.jpg") (Some "x.jpeg")
     = Return "x.png".
Proof.
  assert (R1 : remove_background (P := working) "dir/photo.jpg"
                 (Some "x.jpeg") boot
               = (Return "x.png",
                  snd (remove_background (P := working) "dir/photo.jpg"
                         (Some "x.jpeg") boot)))
    by (vm_compute; reflexivity).
  assert (R2 : remove_background (P := working) "dir/photo.jpg"
                 (Some "x.jpeg") other_boot
               = (Return "x.png",
                  snd (remove_background (P := working) "dir/photo.jpg"
                         (Some "x.jpeg") other_boot)))
    by (vm_compute; reflexivity).
  split; [exact R1|]. split; [exact R2|].
  exact (output_path_from_arguments_alone (P1 := working) (P2 := working)
           _ _ _ _ _ _ _ _ R1 R2).
Defined.

End Examples.

(** ** The platform calls of a run *)

Section Traces.

Context {W Image : Type} {P : Platform W Image}.
Import Pathlib PathlibFacts ResolveFacts.

(** The [try] block, step by step. *)
Lemma process_run input_path out (s : State W) :
  process input_path out s
  = let st w evs :=
      mkState w (events s ++ evs)%list (stdout s) (stderr s) in
    match read_binary input_path (world s) with
    | (Raise e, w1) => (Raise e, st w1 [EvOpenRead input_path])
    | (Return data, w1) =>
        match rembg_remove data w1 with
        | (Raise e, w2) => (Raise e, st w2 [EvOpenRead input_path; EvRemove])
        | (Return result, w2) =>
            match Image_open result w2 with
            | (Raise e, w3) =>
                (Raise e,
                 st w3 [EvOpenRead input_path; EvRemove; EvImageOpen])
            | (Return image, w3) =>
                match Image_save image out w3 with
                | (Raise e, w4) =>
                    (Raise e,
                     st w4 [EvOpenRead input_path; EvRemove; EvImageOpen;
                            EvSave out])
                | (Return _, w4) =>
                    (Return out,
                     st w4 [EvOpenRead input_path; EvRemove; EvImageOpen;
                            EvSave out])
                end
            end
        end
    end.
Proof.
  unfold process, bind, log, call, ret; cbn.
  destruct (read_binary _ _) as [[d|e1] w1]; cbn; [|reflexivity].
  destruct (rembg_remove _ _) as [[r|e2] w2]; cbn;
    [|now rewrite <- !app_assoc].
  destruct (Image_open _ _) as [[i|e3] w3]; cbn;
    [|now rewrite <- !app_assoc].
  destruct (Image_save _ _ _) as [[[]|e4] w4]; cbn;
    now rewrite <- !app_assoc.
Qed.

(** The log only grows, by at most the four calls of the block in their
    order, and the block prints nothing. *)
Lemma process_trace input_path out (s : State W) r s' :
  process input_path out s = (r, s') ->
  exists n,
    (1 <= n <= 4)%nat
    /\ events s'
       = (events s
          ++ firstn n [EvOpenRead input_path; EvRemove; EvImageOpen;
                       EvSave out])%list
    /\ stdout s' = stdout s /\ stderr s' = stderr s
    /\ (forall p, r = Return p -> n = 4%nat).
Proof.
  rewrite process_run; cbn zeta.
  destruct (read_binary _ _) as [[d|e1] w1];
    [|intros [= <- <-]; exists 1%nat; cbn; repeat split; (lia || discriminate)].
  destruct (rembg_remove _ _) as [[x|e2] w2];
    [|intros [= <- <-]; exists 2%nat; cbn; repeat split; (lia || discriminate)].
  destruct (Image_open _ _) as [[i|e3] w3];
    [|intros [= <- <-]; exists 3%nat; cbn; repeat split; (lia || discriminate)].
  destruct (Image_save _ _ _) as [[[]|e4] w4];
    intros [= <- <-]; exists 4%nat; cbn; repeat split; lia.
Qed.

Lemma process_success input_path out (s : State W) p s' :
  process input_path out s = (Return p, s') <->
  p = out /\
  exists w',
    phase_success input_path out (world s) w'
    /\ s' = mkState w'
              (events s ++ [EvOpenRead input_path; EvRemove; EvImageOpen;
                            EvSave out])%list
              (stdout s) (stderr s).
Proof.
  rewrite process_run; cbn zeta; split.
  - destruct (read_binary _ _) as [[d|e1] w1] eqn:E1; [|discriminate].
    destruct (rembg_remove _ _) as [[x|e2] w2] eqn:E2; [|discriminate].
    destruct (Image_open _ _) as [[i|e3] w3] eqn:E3; [|discriminate].
    destruct (Image_save _ _ _) as [[[]|e4] w4] eqn:E4; [|discriminate].
    intros [= <- <-]; split; [reflexivity|].
    exists w4; split; [econstructor; eauto | reflexivity].
  - intros (-> & w' & [d w1 x w2 i w3 H1 H2 H3 H4] & ->).
    now rewrite H1, H2, H3, H4.
Qed.

(** Nothing in [process] reads the two streams. *)
Lemma process_restream input_path out a b (s : State W) :
  process input_path out (restream a b s)
  = (fst (process input_path out s),
     restream a b (snd (process input_path out s))).
Proof.
  rewrite !process_run; cbn zeta; unfold restream; cbn.
  destruct (read_binary _ _) as [[d|e1] w1]; [|reflexivity].
  destruct (rembg_remove _ _) as [[x|e2] w2]; [|reflexivity].
  destruct (Image_open _ _) as [[i|e3] w3]; [|reflexivity].
  destruct (Image_save _ _ _) as [[[]|e4] w4]; reflexivity.
Qed.

Lemma wrapped_restream (body : M W string) a b (s : State W) :
  body (restream a b s) = (fst (body s), restream a b (snd (body s))) ->
  try_except body wrap_failure (restream a b s)
  = (fst (try_except body wrap_failure s),
     restream a b (snd (try_except body wrap_failure s))).
Proof.
  intros H; rewrite !wrapped_run, H.
  destruct (body s) as [[p|e] s1]; cbn [fst snd]; [reflexivity|].
  destruct (isinstance e Exception); reflexivity.
Qed.

Lemma remove_background_restream input_path output_path a b (s : State W) :
  remove_background input_path output_path (restream a b s)
  = (fst (remove_background input_path output_path s),
     restream a b (snd (remove_background input_path output_path s))).
Proof.
  destruct (stat (world s) (str (Path input_path))) as [k|] eqn:E.
  - destruct k.
    + rewrite !remove_background_validated by exact E.
      destruct (resolve_output_path _ _) as [out|e]; [|reflexivity].
      change (validated input_path (restream a b s))
        with (restream a b (validated input_path s)).
      apply wrapped_restream, process_restream.
    + rewrite !(remove_background_not_file _ _ _ Directory)
        by (exact E || discriminate); reflexivity.
    + rewrite !(remove_background_not_file _ _ _ Special)
        by (exact E || discriminate); reflexivity.
  - rewrite !remove_background_missing by exact E; reflexivity.
Qed.

End Traces.

Module SuffixFacts.
Import Str StrFacts Pathlib PathlibFacts.

Lemma append_inv_head (a x y : string) : a ++ x = a ++ y -> x = y.
Proof. induction a as [|c a IH]; cbn; [auto | intros [= H]; auto]. Qed.

(** From a found index on, the text starts with the character sought. *)
Lemma drop_rfind c s :
  0 <= rfind c s -> exists t, drop (Z.to_nat (rfind c s)) s = String c t.
Proof.
  induction s as [|d s IH]; cbn [rfind]; [lia|].
  destruct (0 <=? rfind c s) eqn:E.
  - apply Z.leb_le in E; intros _.
    destruct (IH E) as [t Ht]; exists t.
    replace (Z.to_nat (rfind c s + 1)) with (S (Z.to_nat (rfind c s))) by lia.
    exact Ht.
  - destruct (Ascii.eqb d c) eqn:Ed; [|lia]; intros _.
    apply Ascii.eqb_eq in Ed; subst d; now exists s.
Qed.

(** A suffix is empty or starts with a dot. *)
Lemma suffix_shape p : suffix p = "" \/ exists t, suffix p = String dot t.
Proof.
  unfold suffix.
  destruct ((0 <? rfind dot (name p)) && _) eqn:E; [right | now left].
  apply andb_true_iff in E as [E _]; apply Z.ltb_lt in E.
  apply drop_rfind; lia.
Qed.

Lemma beside_name_differs p : name (beside p) <> name p.
Proof.
  unfold beside; rewrite name_snoc, (stem_suffix p) at 1.
  intros H; apply append_inv_head in H.
  destruct (suffix_shape p) as [E | [t E]]; rewrite E in H; discriminate.
Qed.

End SuffixFacts.

Section RunCases.

Context {W Image : Type} {P : Platform W Image}.
Import Pathlib PathlibFacts ResolveFacts.

(** The five ways a run of [remove_background] goes. *)
Lemma run_cases input_path output_path (s : State W) :
  let n := str (Path input_path) in
  let r := fst (remove_background input_path output_path s) in
  (stat (world s) n = None
   /\ r = Raise (mkExc FileNotFoundError
                   ("Input file not found: " ++ input_path)))
  \/ (exists k, stat (world s) n = Some k /\ k <> Regular
      /\ r = Raise (mkExc ValueError
                      ("Input path is not a file: " ++ input_path)))
  \/ (stat (world s) n = Some Regular
      /\ exists e, resolve_output_path (Path input_path) output_path = Raise e
                   /\ exc_class e = ValueError /\ r = Raise e)
  \/ (stat (world s) n = Some Regular
      /\ exists out e w',
           resolve_output_path (Path input_path) output_path = Return out
           /\ phase_failure input_path out (world s) e w'
           /\ r = if isinstance e Exception
                  then Raise (mkExc ValueError
                                ("Failed to process image: " ++ exc_msg e))
                  else Raise e)
  \/ (stat (world s) n = Some Regular
      /\ exists out w',
           resolve_output_path (Path input_path) output_path = Return out
           /\ phase_success input_path out (world s) w'
           /\ r = Return out).
Proof.
  intros n r; subst n r.
  destruct (stat (world s) (str (Path input_path))) as [k|] eqn:E;
    [|left; split; [reflexivity|];
      now rewrite (remove_background_missing _ _ _ E)].
  right.
  assert (D : k = Regular \/ k <> Regular)
    by (destruct k; auto; right; discriminate).
  destruct D as [-> | Hk];
    [|left; exists k; repeat split; auto;
      now rewrite (remove_background_not_file _ _ _ _ E Hk)].
  right; rewrite (remove_background_validated _ _ _ E).
  destruct (resolve_output_path _ _) as [out|e] eqn:R;
    [|left; split; [reflexivity|]; exists e; repeat split;
      exact (resolve_raises _ _ _ R)].
  right; rewrite wrapped_run.
  destruct (process _ _ _) as [[p|e] s1] eqn:Ep.
  - right; split; [reflexivity|].
    apply process_success in Ep as (-> & w' & Hs & _).
    exists out, w'; auto.
  - left; split; [reflexivity|].
    exists out, e, (world s1); repeat split.
    + exact (process_raises _ _ _ _ _ Ep).
    + now destruct (isinstance e Exception).
Qed.

End RunCases.

(** ** Further properties of the program *)

Section Extras.

Context {W Image : Type} {P : Platform W Image}.
Import Pathlib PathlibFacts ResolveFacts SuffixFacts.

(** X1.  [remove_background] returns [p] exactly when the input is a
    regular file, the output path resolves to [p] and the read,
    transform, decode and write steps all return; the run then made the
    six platform calls in order, the last one saving to [p], and printed
    nothing. *)
Theorem success_characterised input_path output_path (s : State W) p s' :
  remove_background input_path output_path s = (Return p, s') <->
  stat (world s) (str (Path input_path)) = Some Regular
  /\ resolve_output_path (Path input_path) output_path = Return p
  /\ exists w',
       phase_success input_path p (world s) w'
       /\ s' = mkState w' (events s ++ calls input_path p)%list
                 (stdout s) (stderr s).
Proof.
  split.
  - intros H; destruct (returned_path _ _ _ _ _ H) as [Hs Hr].
    repeat split; try assumption.
    rewrite (remove_background_validated _ _ _ Hs), Hr, wrapped_run in H.
    destruct (process _ _ _) as [[q|e] s1] eqn:Ep;
      [|now destruct (isinstance e Exception)].
    injection H as -> ->.
    apply process_success in Ep as (_ & w' & Hp & ->).
    exists w'; split; [exact Hp|].
    unfold validated, logged, calls; cbn; now rewrite <- app_assoc.
  - intros (Hs & Hr & w' & Hp & ->).
    rewrite (remove_background_validated _ _ _ Hs), Hr, wrapped_run.
    assert (Ep : process input_path p (validated input_path s)
                 = (Return p,
                    mkState w'
                      (events (validated input_path s)
                       ++ [EvOpenRead input_path; EvRemove; EvImageOpen;
                           EvSave p])%list
                      (stdout s) (stderr s))).
    { apply process_success; split; [reflexivity|]; exists w'; auto. }
    rewrite Ep; unfold validated, logged, calls; cbn.
    now rewrite <- app_assoc.
Qed.

(** X3.  An input path without components and without root (the empty
    string, [.], [./] and the like) is checked as the current directory
    [.]: where that is a directory the run raises [ValueError], not
    [FileNotFoundError], and opens nothing. *)
Theorem componentless_input_is_current_directory
    input_path output_path (s : State W) :
  Path input_path = mkPath "" [] ->
  stat (world s) "." = Some Directory ->
  remove_background input_path output_path s
  = (Raise (mkExc ValueError ("Input path is not a file: " ++ input_path)),
     logged [EvStat "."; EvStat "."] s).
Proof.
  intros Hp Hd.
  assert (Hn : str (Path input_path) = ".") by now rewrite Hp.
  rewrite (remove_background_not_file _ _ _ Directory);
    [|now rewrite Hn | discriminate].
  unfold validated; now rewrite Hn.
Qed.

(** X4.  With no output path given, the path a run returns is never the
    input path: its last component differs from the input's. *)
Theorem default_output_is_not_the_input input_path (s : State W) p s' :
  remove_background input_path None s = (Return p, s') ->
  name (Path p) <> name (Path input_path)
  /\ Path p <> Path input_path
  /\ p <> input_path.
Proof.
  intros H; apply returned_path in H as [_ H].
  pose proof (Path_wf input_path) as Hw.
  rewrite (resolve_default _ Hw) in H; injection H as <-.
  destruct (beside_facts _ Hw) as (Hp & _).
  assert (N : name (Path (str (beside (Path input_path))))
              <> name (Path input_path))
    by (rewrite Hp; apply beside_name_differs).
  repeat split; [exact N | |]; intros E; apply N; now rewrite E.
Qed.

(** X5.  A returned path is a fixed point of the resolution: given as the
    output path of a later call, on any input, it is used as it is. *)
Theorem returned_path_is_stable
    input_path output_path (s : State W) p s' later (t : State W) :
  remove_background input_path output_path s = (Return p, s') ->
  stat (world t) (str (Path later)) = Some Regular ->
  resolve_output_path (Path later) (Some p) = Return p
  /\ remove_background later (Some p) t
     = try_except (process later p) wrap_failure (validated later t).
Proof.
  intros H Ht; apply returned_path in H as [_ H].
  destruct (resolve_suffix _ _ _ (Path_wf input_path) H) as [Hl _].
  pose proof (resolve_given_png (Path later) p Hl) as R.
  split; [exact R|].
  now rewrite (remove_background_validated _ _ _ Ht), R.
Qed.

End Extras.

Section MainFacts.

Context {W Image : Type} {P : Platform W Image}.
Import Pathlib PathlibFacts ResolveFacts.

Lemma restream_self (s : State W) : restream (stdout s) (stderr s) s = s.
Proof. now destruct s. Qed.

(** [remove_background] leaves the two streams alone. *)
Lemma never_prints input_path output_path (s : State W) r s' :
  remove_background input_path output_path s = (r, s') ->
  stdout s' = stdout s /\ stderr s' = stderr s.
Proof.
  intros H.
  pose proof (remove_background_restream input_path output_path
                (stdout s) (stderr s) s) as F.
  rewrite restream_self, H in F; cbn in F.
  injection F as F; rewrite F; now split.
Qed.

Lemma returned_state input_path output_path (s : State W) p s' :
  remove_background input_path output_path s = (Return p, s') ->
  events s' = (events s ++ calls input_path p)%list.
Proof.
  intros H; destruct (returned_path _ _ _ _ _ H) as [Hs Hr].
  rewrite (remove_background_validated _ _ _ Hs), Hr, wrapped_run in H.
  destruct (process _ _ _) as [[q|e] s1] eqn:Ep;
    [|now destruct (isinstance e Exception)].
  injection H as -> ->.
  apply process_success in Ep as (_ & w' & _ & ->).
  unfold validated, logged, calls; cbn; now rewrite <- app_assoc.
Qed.

(** What [main] returns, from what [remove_background] does. *)
Lemma main_outcome args (s : State W) :
  fst (main args s)
  = match fst (remove_background (input args) (output args)
                 (banner args s)) with
    | Return _ => Return 0
    | Raise e =>
        if isinstance e FileNotFoundError then Return 1
        else if isinstance e ValueError then Return 2
        else if isinstance e Exception then Return 3
        else Raise e
    end.
Proof.
  unfold main; rewrite main_with_run.
  destruct (remove_background _ _ _) as [[p|e] s1]; [reflexivity|].
  cbn [fst].
  destruct (isinstance e FileNotFoundError); [reflexivity|].
  destruct (isinstance e ValueError); [reflexivity|].
  destruct (isinstance e Exception); reflexivity.
Qed.

(** The exit code of each of the five ways a run goes. *)
Lemma main_cases args (s : State W) :
  let n := str (Path (input args)) in
  let code := fst (main args s) in
  (stat (world s) n = None /\ code = Return 1)
  \/ (exists k, stat (world s) n = Some k /\ k <> Regular /\ code = Return 2)
  \/ (stat (world s) n = Some Regular
      /\ (exists e, resolve_output_path (Path (input args)) (output args)
                    = Raise e)
      /\ code = Return 2)
  \/ (stat (world s) n = Some Regular
      /\ exists out e w',
           resolve_output_path (Path (input args)) (output args) = Return out
           /\ phase_failure (input args) out (world s) e w'
           /\ ((isinstance e Exception = true /\ code = Return 2)
               \/ (isinstance e Exception = false /\ code = Raise e)))
  \/ (stat (world s) n = Some Regular
      /\ (exists out w',
            resolve_output_path (Path (input args)) (output args)
            = Return out
            /\ phase_success (input args) out (world s) w')
      /\ code = Return 0).
Proof.
  intros n code; subst n code; rewrite main_outcome.
  destruct (run_cases (input args) (output args) (banner args s))
    as [[Hs ->] | [(k & Hs & Hk & ->) | [(Hs & e & Hr & He & ->)
       | [(Hs & out & e & w' & Hr & Hf & ->)
         | (Hs & out & w' & Hr & Hp & ->)]]]];
    rewrite ?world_banner in *.
  - left; now split.
  - right; left; exists k; now repeat split.
  - right; right; left; repeat split; eauto.
    destruct (ValueError_exit _ He) as [-> ->]; reflexivity.
  - right; right; right; left; split; [exact Hs|].
    exists out, e, w'; repeat split; auto.
    destruct (isinstance e Exception) eqn:Ei; [left | right];
      split; try reflexivity.
    now destruct (not_Exception_uncaught _ Ei) as [-> ->]; rewrite Ei.
  - right; right; right; right; repeat split; eauto.
Qed.

End MainFacts.

Section ExitCodes.

Context {W Image : Type} {P : Platform W Image}.
Import Pathlib PathlibFacts ResolveFacts.

Ltac same_step :=
  match goal with
  | H1 : ?op = _, H2 : ?op = _ |- _ =>
      rewrite H1 in H2; (discriminate H2 || (injection H2 as; subst))
  end.

(** The phase fails in one way only, and not when it succeeds. *)
Lemma phase_failure_functional input_path out (w : W) e1 w1 e2 w2 :
  phase_failure input_path out w e1 w1 ->
  phase_failure input_path out w e2 w2 -> e1 = e2.
Proof.
  intros [] []; repeat same_step; reflexivity.
Qed.

Lemma phase_exclusive input_path out (w : W) w1 e w2 :
  phase_success input_path out w w1 ->
  phase_failure input_path out w e w2 -> False.
Proof.
  intros [] []; repeat same_step.
Qed.

(** In the first model, where [os.stat] answers and the prints succeed:
    the exit code is 1 exactly when the input path does not exist, 0
    exactly when everything returned, 2 in the remaining cases of an
    error. *)
Lemma exit_code_meaning args (s : State W) :
  let n := str (Path (input args)) in
  let resolved := resolve_output_path (Path (input args)) (output args) in
  (fst (main args s) = Return 1 <-> stat (world s) n = None)
  /\ (fst (main args s) = Return 0 <->
      stat (world s) n = Some Regular
      /\ exists out w',
           resolved = Return out
           /\ phase_success (input args) out (world s) w')
  /\ (fst (main args s) = Return 2 <->
      (exists k, stat (world s) n = Some k /\ k <> Regular)
      \/ (stat (world s) n = Some Regular
          /\ ((exists e, resolved = Raise e)
              \/ exists out e w',
                   resolved = Return out
                   /\ phase_failure (input args) out (world s) e w'
                   /\ isinstance e Exception = true))).
Proof.
  intros n resolved; subst n resolved.
  pose proof (main_cases args s) as C; cbn zeta in C.
  split; [|split]; split.
  - intros H; rewrite H in C.
    destruct C as [[Hs _] | [(k & _ & _ & [=]) | [(_ & _ & [=])
       | [(_ & out & e & w' & _ & _ & [[_ [=]] | [_ [=]]])
         | (_ & _ & [=])]]]]; exact Hs.
  - intros H; rewrite H in C.
    destruct C as [[_ Hc] | [(k & [=] & _) | [([=] & _)
       | [([=] & _) | ([=] & _)]]]]; exact Hc.
  - intros H; rewrite H in C.
    destruct C as [[_ [=]] | [(k & _ & _ & [=]) | [(_ & _ & [=])
       | [(_ & out & e & w' & _ & _ & [[_ [=]] | [_ [=]]])
         | (Hs & Hx & _)]]]]; now split.
  - intros (Hs & out & w' & Hr & Hp).
    destruct C as [[Hn _] | [(k & Hk & Hne & _) | [(_ & [e He] & _)
       | [(_ & out2 & e & w2 & Hr2 & Hf & _) | (_ & _ & Hc)]]]];
      try congruence.
    rewrite Hr in Hr2; injection Hr2 as <-.
    destruct (phase_exclusive _ _ _ _ _ _ Hp Hf).
  - intros H; rewrite H in C.
    destruct C as [[_ [=]] | [(k & Hs & Hk & _) | [(Hs & He & _)
       | [(Hs & out & e & w' & Hr & Hf & [[Hi _] | [_ [=]]])
         | (_ & _ & [=])]]]].
    + left; eauto.
    + right; split; [exact Hs | now left].
    + right; split; [exact Hs | right; eauto 6].
  - intros H.
    destruct C as [[Hn _] | [(k & Hk & Hne & Hc) | [(Hs & [e He] & Hc)
       | [(Hs & out2 & e2 & w2 & Hr2 & Hf2 & Hc)
         | (Hs & (o & w5 & Hr5 & Hp) & _)]]]].
    + destruct H as [(k & Hk & _) | (Hk & _)]; congruence.
    + exact Hc.
    + exact Hc.
    + destruct H
        as [(k & Hk & Hne)
           | (_ & [[e He] | (out & e & w' & Hr & Hf & Hi)])];
        try congruence.
      rewrite Hr in Hr2; injection Hr2 as <-.
      rewrite (phase_failure_functional _ _ _ _ _ _ _ Hf Hf2) in Hi.
      destruct Hc as [[_ Hc] | [Hi2 _]]; [exact Hc | congruence].
    + destruct H
        as [(k & Hk & Hne)
           | (_ & [[e He] | (out & e & w' & Hr & Hf & Hi)])];
        try congruence.
      rewrite Hr in Hr5; injection Hr5 as <-.
      destruct (phase_exclusive _ _ _ _ _ _ Hp Hf).
Qed.

(** In the first model the verbose flag changes what is printed and
    nothing else. *)
Lemma verbose_only_prints input_path output_path (s : State W) :
  let loud := main (mkArgs input_path output_path true) s in
  let quiet := main (mkArgs input_path output_path false) s in
  fst loud = fst quiet
  /\ world (snd loud) = world (snd quiet)
  /\ events (snd loud) = events (snd quiet).
Proof.
  cbn zeta; unfold main; rewrite !main_with_run; cbn [input output].
  change (banner (mkArgs input_path output_path false) s) with s.
  change (banner (mkArgs input_path output_path true) s)
    with (restream (stdout s ++ [("Processing: " ++ input_path)%string])%list
            (stderr s) s).
  rewrite remove_background_restream.
  destruct (remove_background input_path output_path s) as [[p|e] s1];
    cbn [fst snd]; [now repeat split|].
  destruct (isinstance e FileNotFoundError); [now repeat split|].
  destruct (isinstance e ValueError); [now repeat split|].
  destruct (isinstance e Exception); now repeat split.
Qed.

(** In the first model: what [main] prints, by exit code. *)
Lemma main_streams args (s : State W) code s' :
  main args s = (Return code, s') ->
  (code = 0
   /\ exists p,
        stdout s'
        = (stdout (banner args s)
           ++ ["Background removed successfully!";
               ("Saved to: " ++ p)%string])%list
        /\ stderr s' = stderr s
        /\ events s' = (events s ++ calls (input args) p)%list)
  \/ ((code = 1 \/ code = 2)
      /\ stdout s' = stdout (banner args s)
      /\ exists m, stderr s' = (stderr s ++ [("Error: " ++ m)%string])%list).
Proof.
  unfold main; rewrite main_with_run.
  assert (Be : events (banner args s) = events s
               /\ stderr (banner args s) = stderr s)
    by (unfold banner; now destruct (verbose args)).
  destruct Be as [Be Bs].
  destruct (remove_background _ _ _) as [[p|e] s1] eqn:R.
  - intros [= <- <-]; left; split; [reflexivity|]; exists p; cbn.
    destruct (never_prints _ _ _ _ _ R) as [Ho He].
    rewrite (returned_state _ _ _ _ _ R), Ho, He, Be, Bs.
    now rewrite <- app_assoc.
  - destruct (never_prints _ _ _ _ _ R) as [Ho He].
    destruct (raised_classes _ _ _ _ _ R) as [[Hc _] | [Hc | [Hc _]]].
    + assert (Hi : isinstance e FileNotFoundError = true)
        by (destruct e as [c m]; cbn in Hc; now subst c).
      rewrite Hi; intros [= <- <-]; right.
      split; [now left|]; cbn; split; [exact Ho|].
      exists (exc_msg e); now rewrite He, Bs.
    + destruct (ValueError_exit _ Hc) as [-> ->]; intros [= <- <-]; right.
      split; [now right|]; cbn; split; [exact Ho|].
      exists (exc_msg e); now rewrite He, Bs.
    + destruct (not_Exception_uncaught _ Hc) as [-> ->]; rewrite Hc.
      discriminate.
Qed.

End ExitCodes.

Section ScriptFacts.

Context {W Image : Type} {P : Platform W Image}.
Import Pathlib PathlibFacts ResolveFacts.

(** The script on at least two arguments, from what [remove_background]
    does. *)
Lemma script_output_arg prog input_path rest :
  (if 2 <? Z.of_nat (length (prog :: input_path :: rest))
   then Some (nth 2 (prog :: input_path :: rest) "")
   else None)
  = match rest with [] => None | o :: _ => Some o end.
Proof.
  destruct rest as [|o extra]; [reflexivity|].
  replace (2 <? Z.of_nat (length (prog :: input_path :: o :: extra)))
    with true by (symmetry; apply Z.ltb_lt; cbn [length]; lia).
  reflexivity.
Qed.

Lemma script_run prog input_path rest (s : State W) :
  script (prog :: input_path :: rest) s
  = match remove_background input_path
            (match rest with [] => None | o :: _ => Some o end) s with
    | (Return p, s1) =>
        (Return tt,
         mkState (world s1) (events s1)
           (stdout s1
            ++ [("Background removed successfully! Saved to: " ++ p)%string]
           )%list
           (stderr s1))
    | (Raise e, s1) =>
        if isinstance e Exception
        then (Raise (mkExc SystemExit "1"),
              mkState (world s1) (events s1) (stdout s1)
                (stderr s1 ++ [("Error: " ++ exc_msg e)%string])%list)
        else (Raise e, s1)
    end.
Proof.
  assert (L : (Z.of_nat (length (prog :: input_path :: rest)) <? 2) = false)
    by (apply Z.ltb_ge; cbn [length]; lia).
  unfold script; cbv zeta.
  rewrite L, script_output_arg; cbn [nth].
  unfold bind at 1, ret at 1, try_except, bind.
  destruct (remove_background _ _ s) as [[p|e] s1]; [reflexivity|].
  cbn [handler]; now destruct (isinstance e Exception).
Qed.


(** X11.  The script looks at [argv[1]] and [argv[2]] only: the program
    name and any argument after the second do not matter. *)
Theorem script_ignores_the_rest
    prog prog' input_path output_path extra (s : State W) :
  script (prog :: input_path :: output_path :: extra) s
  = script [prog'; input_path; output_path] s
  /\ script [prog; input_path] s = script [prog'; input_path] s.
Proof. now rewrite !script_run. Qed.

(** X12.  The messages the tests look for: lowered, the message of the
    error for a missing input holds [not found], the one for an input
    that is not a regular file holds [not a file], and the one for a
    failed step holds [failed to process]; this for every path and every
    cause. *)
Theorem error_messages_as_tested input_path output_path (s : State W) :
  (stat (world s) (str (Path input_path)) = None ->
   exists e,
     fst (remove_background input_path output_path s) = Raise e
     /\ exc_class e = FileNotFoundError
     /\ Text.occurs "not found" (Str.lower (exc_msg e)) = true)
  /\ (forall k,
        stat (world s) (str (Path input_path)) = Some k -> k <> Regular ->
        exists e,
          fst (remove_background input_path output_path s) = Raise e
          /\ exc_class e = ValueError
          /\ Text.occurs "not a file" (Str.lower (exc_msg e)) = true)
  /\ (forall out cause w',
        stat (world s) (str (Path input_path)) = Some Regular ->
        resolve_output_path (Path input_path) output_path = Return out ->
        phase_failure input_path out (world s) cause w' ->
        isinstance cause Exception = true ->
        exists e,
          fst (remove_background input_path output_path s) = Raise e
          /\ exc_class e = ValueError
          /\ Text.occurs "failed to process" (Str.lower (exc_msg e)) = true).
Proof.
  split; [|split].
  - intros H; rewrite (remove_background_missing _ _ _ H).
    eexists; split; [reflexivity|]; split; reflexivity.
  - intros k H Hk; rewrite (remove_background_not_file _ _ _ _ H Hk).
    eexists; split; [reflexivity|]; split; reflexivity.
  - intros out cause w' Hs Hr Hf Hi.
    destruct (processing_failure_wrapped _ _ _ s _ _ Hs Hr Hf Hi)
      as (s1 & -> & _).
    eexists; split; [reflexivity|]; split; reflexivity.
Qed.

End ScriptFacts.

Section PassThrough.

Import Pathlib PathlibFacts ResolveFacts.

(** X13.  A given output path comes back as the very text the caller
    wrote exactly when the suffix of its last component lowers to
    [.png]. *)
Theorem passed_through_iff_png (input_file : PurePath) given :
  resolve_output_path input_file (Some given) = Return given
  <-> Str.lower (suffix (Path given)) = ".png".
Proof.
  split; [|apply resolve_given_png].
  intros H.
  destruct (string_dec (Str.lower (suffix (Path given))) ".png")
    as [E|E]; [exact E | exfalso].
  destruct (string_dec (name (Path given)) "") as [Hn|Hn].
  - now rewrite (resolve_given_no_name _ _ E Hn) in H.
  - rewrite (resolve_given_other _ _ E Hn) in H; injection H as H.
    destruct (resuffixed_facts _ (Path_wf given) Hn)
      as (Hp & _ & _ & _ & Hs).
    apply E; rewrite <- H at 1; now rewrite Hp, Hs.
Qed.

End PassThrough.

(** ** The further properties at concrete runs *)

Module MoreExamples.
Import Pathlib ResolveFacts Toy.

Lemma success_characterised_witness :
  stat (Platform := working) (world boot) (str (Path "dir/photo.jpg"))
  = Some Regular
  /\ resolve_output_path (Path "dir/photo.jpg") (Some "cut.PNG")
     = Return "cut.PNG"
  /\ exists w',
       phase_success (P := working) "dir/photo.jpg" "cut.PNG" (world boot) w'
       /\ snd (remove_background (P := working) "dir/photo.jpg"
                 (Some "cut.PNG") boot)
          = mkState w' (events boot ++ calls "dir/photo.jpg" "cut.PNG")%list
              (stdout boot) (stderr boot).
Proof.
  apply (proj1 (success_characterised (P := working) "dir/photo.jpg"
                  (Some "cut.PNG") boot "cut.PNG"
                  (snd (remove_background (P := working) "dir/photo.jpg"
                          (Some "cut.PNG") boot)))).
  vm_compute; reflexivity.
Defined.

Lemma componentless_input_is_current_directory_witness :
  Path "" = mkPath "" []
  /\ stat (Platform := working) [(".", Dir)] "." = Some Directory
  /\ remove_background (P := working) "" None (mkState [(".", Dir)] [] [] [])
     = (Raise (mkExc ValueError "Input path is not a file: "),
        logged [EvStat "."; EvStat "."] (mkState [(".", Dir)] [] [] [])).
Proof.
  split; [reflexivity|]. split; [reflexivity|].
  apply (componentless_input_is_current_directory (P := working)
           "" None (mkState [(".", Dir)] [] [] []));
    reflexivity.
Defined.

Lemma default_output_is_not_the_input_witness :
  remove_background (P := working) "dir/photo.jpg" None boot
  = (Return "dir/photo_nobg.png",
     snd (remove_background (P := working) "dir/photo.jpg" None boot))
  /\ name (Path "dir/photo_nobg.png") <> name (Path "dir/photo.jpg")
  /\ Path "dir/photo_nobg.png" <> Path "dir/photo.jpg"
  /\ "dir/photo_nobg.png" <> "dir/photo.jpg".
Proof.
  assert (R : remove_background (P := working) "dir/photo.jpg" None boot
              = (Return "dir/photo_nobg.png",
                 snd (remove_background (P := working) "dir/photo.jpg"
                        None boot)))
    by (vm_compute; reflexivity).
  split; [exact R|].
  exact (default_output_is_not_the_input (P := working) _ _ _ _ R).
Defined.

Lemma returned_path_is_stable_witness :
  remove_background (P := working) "dir/photo.jpg" (Some "a//cut.jpeg") boot
  = (Return "a/cut.png",
     snd (remove_background (P := working) "dir/photo.jpg"
            (Some "a//cut.jpeg") boot))
  /\ stat (Platform := working) (world other_boot)
       (str (Path "dir/photo.jpg")) = Some Regular
  /\ resolve_output_path (Path "dir/photo.jpg") (Some "a/cut.png")
     = Return "a/cut.png"
  /\ remove_background (P := working) "dir/photo.jpg" (Some "a/cut.png")
       other_boot
     = try_except (process (P := working) "dir/photo.jpg" "a/cut.png")
         wrap_failure (validated "dir/photo.jpg" other_boot).
Proof.
  assert (R : remove_background (P := working) "dir/photo.jpg"
                (Some "a//cut.jpeg") boot
              = (Return "a/cut.png",
                 snd (remove_background (P := working) "dir/photo.jpg"
                        (Some "a//cut.jpeg") boot)))
    by (vm_compute; reflexivity).
  assert (H : stat (Platform := working) (world other_boot)
                (str (Path "dir/photo.jpg")) = Some Regular) by reflexivity.
  split; [exact R|]. split; [exact H|].
  exact (returned_path_is_stable (P := working) _ _ _ _ _
           "dir/photo.jpg" other_boot R H).
Defined.


Lemma error_messages_as_tested_witness :
  stat (Platform := working) (world boot) (str (Path "Missing.JPG")) = None
  /\ exists e,
       fst (remove_background (P := working) "Missing.JPG" None boot)
       = Raise e
       /\ exc_class e = FileNotFoundError
       /\ Text.occurs "not found" (Str.lower (exc_msg e)) = true.
Proof.
  assert (H : stat (Platform := working) (world boot)
                (str (Path "Missing.JPG")) = None) by reflexivity.
  split; [exact H|].
  exact (proj1 (error_messages_as_tested (P := working)
                  "Missing.JPG" None boot) H).
Defined.

Lemma passed_through_iff_png_witness :
  Str.lower (suffix (Path "a//b.Png")) = ".png"
  /\ resolve_output_path (Path "x") (Some "a//b.Png") = Return "a//b.Png".
Proof.
  assert (H : Str.lower (suffix (Path "a//b.Png")) = ".png") by reflexivity.
  split; [exact H|].
  exact (proj2 (passed_through_iff_png (Path "x") "a//b.Png") H).
Defined.

End MoreExamples.

(** ** Runs of the program with failing stat and failing prints *)

Section FullRuns.

Context {W Image : Type} {P : Platform W Image} {F : Faults W}.
Import Pathlib PathlibFacts ResolveFacts.

(** A run is the run of the first model unless [os.stat] fails, and then
    the error of [os.stat] leaves [exists] as it is. *)
Lemma full_remove_background_eq input_path output_path (s : State W) :
  Full.remove_background input_path output_path s
  = match stat_error (world s) (str (Path input_path)) with
    | Some e => (Raise e, logged [EvStat (str (Path input_path))] s)
    | None => remove_background input_path output_path s
    end.
Proof.
  unfold Full.remove_background, remove_background, bind at 1.
  unfold Full.exists_, exists_, bind, log; cbn [world].
  destruct (stat_error (world s) (str (Path input_path))) as [e|] eqn:E;
    [reflexivity|].
  destruct (stat (world s) (str (Path input_path))) as [k|];
    [|reflexivity]; cbn [negb].
  unfold Full.is_file, is_file, bind, log; cbn [world].
  now rewrite E.
Qed.

Lemma full_write_ok stream line (s : State W) :
  write_error stream line (world s) = None ->
  Full.write stream line s
  = (Return tt,
     match stream with
     | Stdout => mkState (world s) (events s) (stdout s ++ [line]) (stderr s)
     | Stderr => mkState (world s) (events s) (stdout s) (stderr s ++ [line])
     end).
Proof. intros H; unfold Full.write; now rewrite H. Qed.

Lemma full_write_fails stream line (s : State W) e :
  write_error stream line (world s) = Some e ->
  Full.write stream line s = (Raise e, s).
Proof. intros H; unfold Full.write; now rewrite H. Qed.

(** [main], print by print. *)
Lemma full_main_with_run
    (callee : string -> option string -> M W string) args (s : State W) :
  Full.main_with callee args s
  = match Full.banner_error args (world s) with
    | Some e => Full.handled args e s
    | None =>
        match callee (input args) (output args) (banner args s) with
        | (Raise e, s1) => Full.handled args e s1
        | (Return p, s1) =>
            match write_error Stdout "Background removed successfully!"
                    (world s1) with
            | Some e => Full.handled args e s1
            | None =>
                let s2 :=
                  mkState (world s1) (events s1)
                    (stdout s1 ++ ["Background removed successfully!"])
                    (stderr s1) in
                match write_error Stdout ("Saved to: " ++ p) (world s1) with
                | Some e => Full.handled args e s2
                | None =>
                    (Return 0,
                     mkState (world s1) (events s1)
                       (stdout s2 ++ ["Saved to: " ++ p]) (stderr s1))
                end
            end
        end
    end.
Proof.
  unfold Full.main_with, try_except, Full.handled, Full.banner_error, banner.
  unfold bind at 1.
  destruct (verbose args).
  - unfold Full.print at 1, Full.write at 1.
    destruct (write_error Stdout _ (world s)) as [e|]; [reflexivity|].
    unfold bind at 1.
    destruct (callee _ _ _) as [[p|e] s1]; [|reflexivity].
    unfold bind at 1, Full.print at 1, Full.write at 1.
    destruct (write_error Stdout _ (world s1)) as [e|]; [reflexivity|].
    unfold bind at 1, Full.print at 1, Full.write at 1; cbn [world].
    destruct (write_error Stdout _ (world s1)) as [e|]; reflexivity.
  - unfold ret at 1, bind at 1.
    destruct (callee _ _ _) as [[p|e] s1]; [|reflexivity].
    unfold bind at 1, Full.print at 1, Full.write at 1.
    destruct (write_error Stdout _ (world s1)) as [e|]; [reflexivity|].
    unfold bind at 1, Full.print at 1, Full.write at 1; cbn [world].
    destruct (write_error Stdout _ (world s1)) as [e|]; reflexivity.
Qed.

Lemma full_print_lines_ok lines (s : State W) :
  Full.stderr_takes_all ->
  Full.print_lines lines s
  = (Return tt,
     mkState (world s) (events s) (stdout s) (stderr s ++ lines)).
Proof.
  intros H; revert s; induction lines as [|l r IH]; intros s.
  - cbn; unfold ret; rewrite app_nil_r; now destruct s.
  - cbn [Full.print_lines]; unfold bind, Full.print_err.
    rewrite (full_write_ok _ _ _ (H l (world s))), IH; cbn.
    now rewrite <- app_assoc.
Qed.

(** A handler whose prints succeed: the exit code, one more line on
    standard error for the codes 1 and 2, nothing else touched. *)
Lemma full_handled_ok args e (s : State W) :
  Full.stderr_takes_all ->
  fst (Full.handled args e s) = exit_of e
  /\ world (snd (Full.handled args e s)) = world s
  /\ events (snd (Full.handled args e s)) = events s
  /\ stdout (snd (Full.handled args e s)) = stdout s
  /\ (isinstance e FileNotFoundError = true
      \/ isinstance e ValueError = true ->
      snd (Full.handled args e s) = reported 1 args e s).
Proof.
  intros H; unfold exit_of.
  assert (Err : forall line,
            Full.print_err line s
            = (Return tt,
               mkState (world s) (events s) (stdout s)
                 (stderr s ++ [line])))
    by (intros line; exact (full_write_ok Stderr line s (H line (world s)))).
  destruct (isinstance e FileNotFoundError) eqn:E1.
  { assert (R : Full.handled args e s = (Return 1, reported 1 args e s)).
    { unfold Full.handled, Full.except_clauses; cbn [handler].
      rewrite E1; unfold bind; now rewrite Err. }
    rewrite R; repeat split. }
  destruct (isinstance e ValueError) eqn:E2.
  { assert (R : Full.handled args e s = (Return 2, reported 1 args e s)).
    { unfold Full.handled, Full.except_clauses; cbn [handler].
      rewrite E1, E2; unfold bind; now rewrite Err. }
    rewrite R; repeat split. }
  destruct (isinstance e Exception) eqn:E3.
  - assert (R : exists lines,
              Full.handled args e s
              = (Return 3,
                 mkState (world s) (events s) (stdout s)
                   (stderr s ++ lines))).
    { unfold Full.handled, Full.except_clauses; cbn [handler].
      rewrite E1, E2, E3; unfold bind at 1; rewrite Err.
      unfold bind at 1; destruct (verbose args).
      - unfold Full.print_exc; rewrite (full_print_lines_ok _ _ H).
        unfold ret; cbn; eexists; rewrite <- app_assoc; reflexivity.
      - unfold ret; eexists; reflexivity. }
    destruct R as [lines R]; rewrite R.
    do 4 (split; [reflexivity|]); intros [|]; discriminate.
  - assert (R : Full.handled args e s = (Raise e, s)).
    { unfold Full.handled, Full.except_clauses; cbn [handler].
      now rewrite E1, E2, E3. }
    rewrite R; do 4 (split; [reflexivity|]); intros [|]; discriminate.
Qed.

End FullRuns.

Section FullMain.

Context {W Image : Type} {P : Platform W Image} {F : Faults W}.
Import Pathlib PathlibFacts ResolveFacts.

Lemma full_handled_uncaught args e (s : State W) :
  isinstance e Exception = false -> Full.handled args e s = (Raise e, s).
Proof.
  intros H; destruct (not_Exception_uncaught _ H) as [H1 H2].
  unfold Full.handled, Full.except_clauses; cbn [handler].
  now rewrite H1, H2, H.
Qed.

Lemma full_banner_ok args (w : W) :
  Full.stdout_takes_all -> Full.banner_error args w = None.
Proof.
  intros H; unfold Full.banner_error; destruct (verbose args); [apply H|].
  reflexivity.
Qed.

Lemma exit_of_classes e :
  (exc_class e = FileNotFoundError -> exit_of e = Return 1)
  /\ (exc_class e = ValueError -> exit_of e = Return 2)
  /\ (isinstance e Exception = false -> exit_of e = Raise e).
Proof.
  unfold exit_of; repeat split.
  - destruct e as [c m]; cbn; now intros ->.
  - intros H; now destruct (ValueError_exit _ H) as [-> ->].
  - intros H; destruct (not_Exception_uncaught _ H) as [-> ->].
    now rewrite H.
Qed.

(** Where nothing outside the four steps fails, [main] is the [main] of
    the first model. *)
Lemma full_main_eq args (s : State W) :
  Full.stdout_takes_all -> Full.stderr_takes_all ->
  stat_error (world s) (str (Path (input args))) = None ->
  Full.main args s = main args s.
Proof.
  intros Ho He Hs.
  unfold Full.main, main; rewrite full_main_with_run, main_with_run.
  rewrite (full_banner_ok _ _ Ho), full_remove_background_eq.
  rewrite world_banner, Hs.
  destruct (remove_background _ _ _) as [[p|e] s1] eqn:R.
  - now rewrite !(Ho _ (world s1)).
  - destruct (raised_classes _ _ _ _ _ R) as [[Hc _] | [Hc | [Hc _]]].
    + assert (Hi : isinstance e FileNotFoundError = true)
        by (destruct e as [c m]; cbn in Hc; now subst c).
      destruct (full_handled_ok args e s1 He) as (A & _ & _ & _ & B).
      rewrite (surjective_pairing (Full.handled args e s1)), A, B by auto.
      unfold exit_of; now rewrite Hi.
    + destruct (ValueError_exit _ Hc) as [H1 H2].
      destruct (full_handled_ok args e s1 He) as (A & _ & _ & _ & B).
      rewrite (surjective_pairing (Full.handled args e s1)), A, B by auto.
      unfold exit_of; now rewrite H1, H2.
    + rewrite (full_handled_uncaught _ _ _ Hc).
      destruct (not_Exception_uncaught _ Hc) as [-> ->]; now rewrite Hc.
Qed.

End FullMain.

Section FullSteps.

Context {W Image : Type} {P : Platform W Image} {F : Faults W}.
Import Pathlib PathlibFacts ResolveFacts.

Lemma process_steps input_path out (s : State W) r s' :
  process input_path out s = (r, s') ->
  exists k,
    (1 <= k <= 4)%nat
    /\ events s'
       = (events s
          ++ firstn k [EvOpenRead input_path; EvRemove; EvImageOpen;
                       EvSave out])%list
    /\ steps_returned input_path (world s) (2 + k)
    /\ stdout s' = stdout s /\ stderr s' = stderr s.
Proof.
  rewrite process_run; cbn zeta; unfold steps_returned.
  destruct (read_binary _ _) as [[d|e1] w1];
    [|intros [= <- <-]; exists 1%nat; cbn; repeat split; lia].
  destruct (rembg_remove _ _) as [[x|e2] w2] eqn:E2.
  2:{ intros [= <- <-]; exists 2%nat; cbn; repeat split; try lia.
      intros _; exists d, w1; split; [reflexivity | lia]. }
  destruct (Image_open _ _) as [[i|e3] w3] eqn:E3.
  2:{ intros [= <- <-]; exists 3%nat; cbn; repeat split; try lia.
      intros _; exists d, w1; split; [reflexivity|].
      intros _; exists x, w2; split; [exact E2 | lia]. }
  assert (K : exists d' w1',
            (Return d, w1) = (Return d', w1')
            /\ ((5 <= 2 + 4)%nat ->
                exists result w2',
                  rembg_remove d' w1' = (Return result, w2')
                  /\ ((6 <= 2 + 4)%nat ->
                      exists image w3',
                        Image_open result w2' = (Return image, w3')))).
  { exists d, w1; split; [reflexivity|].
    intros _; exists x, w2; split; [exact E2|].
    intros _; exists i, w3; exact E3. }
  destruct (Image_save _ _ _) as [[[]|e4] w4];
    intros [= <- <-]; exists 4%nat; cbn; repeat split; try lia;
    intros _; exact K.
Qed.

End FullSteps.

(** ** The properties that depend on stat and on the prints *)

Section FullTheorems.

Context {W Image : Type} {P : Platform W Image} {F : Faults W}.
Import Pathlib PathlibFacts ResolveFacts.

(** C2, as amended.  Where the prints of the handlers succeed, [main]
    returns 0 when the call to [remove_background] returns and the
    prints on standard output succeed; when the call, or a print inside
    the [try] block (the banner, either success line), raises, it
    returns 1 for an instance of [FileNotFoundError], 2 for an instance
    of [ValueError], 3 for any other instance of [Exception], and lets
    an exception that is not an instance of [Exception] go on.  Stated
    for whatever [remove_background] is bound to; [Full.main] is the case
    [callee := Full.remove_background]. *)
Theorem exit_codes_of_main
    (callee : string -> option string -> M W string) args (s : State W) :
  Full.stderr_takes_all ->
  fst (Full.main_with callee args s)
  = match Full.banner_error args (world s) with
    | Some e => exit_of e
    | None =>
        match callee (input args) (output args) (banner args s) with
        | (Raise e, _) => exit_of e
        | (Return p, s1) =>
            match write_error Stdout "Background removed successfully!"
                    (world s1) with
            | Some e => exit_of e
            | None =>
                match write_error Stdout ("Saved to: " ++ p) (world s1) with
                | Some e => exit_of e
                | None => Return 0
                end
            end
        end
    end.
Proof.
  intros H; rewrite full_main_with_run.
  destruct (Full.banner_error _ _) as [e|];
    [exact (proj1 (full_handled_ok args e s H))|].
  destruct (callee _ _ _) as [[p|e] s1];
    [|exact (proj1 (full_handled_ok args e s1 H))].
  destruct (write_error Stdout _ (world s1)) as [e|];
    [exact (proj1 (full_handled_ok args e s1 H))|].
  cbv zeta.
  destruct (write_error Stdout _ (world s1)) as [e|]; [|reflexivity].
  exact (proj1 (full_handled_ok args e _ H)).
Qed.

(** C3, as amended.  When [os.stat] of the normalised input path answers
    that nothing is there, [remove_background] raises
    [FileNotFoundError], the world is as it was and the only platform
    call made is that one [stat]; [main] returns 1 and leaves the world
    as it was, provided its banner print, if any, and the print of the
    error line succeed. *)
Theorem absent_input_not_found input_path output_path v (s : State W) :
  stat_error (world s) (str (Path input_path)) = None ->
  stat (world s) (str (Path input_path)) = None ->
  Full.remove_background input_path output_path s
  = (Raise (mkExc FileNotFoundError
              ("Input file not found: " ++ input_path)),
     logged [EvStat (str (Path input_path))] s)
  /\ world (snd (Full.remove_background input_path output_path s)) = world s
  /\ (Full.banner_error (mkArgs input_path output_path v) (world s) = None ->
      write_error Stderr ("Error: Input file not found: " ++ input_path)
        (world s) = None ->
      fst (Full.main (mkArgs input_path output_path v) s) = Return 1
      /\ world (snd (Full.main (mkArgs input_path output_path v) s))
         = world s).
Proof.
  intros He Hs.
  assert (R : forall t : State W,
            world t = world s ->
            Full.remove_background input_path output_path t
            = (Raise (mkExc FileNotFoundError
                        ("Input file not found: " ++ input_path)),
               logged [EvStat (str (Path input_path))] t)).
  { intros t Ht; rewrite full_remove_background_eq, Ht, He.
    apply remove_background_missing; now rewrite Ht. }
  split; [now apply R|]. split; [now rewrite R|].
  intros Hb Hw.
  unfold Full.main; rewrite full_main_with_run, Hb; cbn [input output].
  rewrite (R _ (world_banner _ _)).
  unfold Full.handled, Full.except_clauses; cbn [handler].
  change (isinstance _ FileNotFoundError) with true; cbv iota.
  unfold bind, Full.print_err; cbn [exc_msg].
  rewrite full_write_ok by (cbn [world logged]; now rewrite world_banner).
  split; [reflexivity | cbn; apply world_banner].
Qed.

(** C8, as amended.  Every error (instance of [Exception]) raised in
    the [try] block is re-raised as [ValueError].  What
    [remove_background] raises is a [FileNotFoundError] for an absent
    input, the error of a failed [os.stat] as it is, a [ValueError], or
    an exception that is not an instance of [Exception] and came out of
    the [try] block unchanged.  Once validation has passed no exception
    it raises is given the exit code 3, and [main] does not return 3
    unless a print on standard output raises. *)
Theorem exceptions_of_remove_background
    input_path output_path v (s : State W) :
  let n := str (Path input_path) in
  (forall out e w',
     stat_error (world s) n = None ->
     stat (world s) n = Some Regular ->
     resolve_output_path (Path input_path) output_path = Return out ->
     phase_failure input_path out (world s) e w' ->
     isinstance e Exception = true ->
     fst (Full.remove_background input_path output_path s)
     = Raise (mkExc ValueError ("Failed to process image: " ++ exc_msg e)))
  /\ match Full.remove_background input_path output_path s with
     | (Return _, _) => True
     | (Raise e, s') =>
         (exc_class e = FileNotFoundError
          /\ stat_error (world s) n = None /\ stat (world s) n = None)
         \/ stat_error (world s) n = Some e
         \/ exc_class e = ValueError
         \/ (isinstance e Exception = false
             /\ exists out,
                  phase_failure input_path out (world s) e (world s'))
     end
  /\ (stat_error (world s) n = None ->
      stat (world s) n = Some Regular ->
      (forall e s',
         Full.remove_background input_path output_path s = (Raise e, s') ->
         exit_of e <> Return 3)
      /\ (Full.stdout_takes_all ->
          fst (Full.main (mkArgs input_path output_path v) s) <> Return 3)).
Proof.
  intros n; subst n.
  assert (V : forall t : State W,
            world t = world s ->
            stat_error (world s) (str (Path input_path)) = None ->
            stat (world s) (str (Path input_path)) = Some Regular ->
            forall e t',
              Full.remove_background input_path output_path t
              = (Raise e, t') ->
              exit_of e = Return 2 \/ exit_of e = Raise e).
  { intros t Ht He Hs e t' R.
    rewrite full_remove_background_eq, Ht, He in R.
    destruct (exit_of_classes e) as (_ & C2 & C3).
    destruct (raised_classes _ _ _ _ _ R) as [[_ Hn] | [Hc | [Hc _]]];
      [rewrite Ht in Hn; congruence | left; auto | right; auto]. }
  split; [|split].
  - intros out e w' He Hs Hr Hf Hi.
    rewrite full_remove_background_eq, He.
    destruct (processing_failure_wrapped _ _ _ s _ _ Hs Hr Hf Hi)
      as (s1 & -> & _); reflexivity.
  - rewrite full_remove_background_eq.
    destruct (stat_error _ _) as [e|] eqn:He; [right; now left|].
    destruct (remove_background _ _ s) as [[p|e] s'] eqn:R; [exact I|].
    destruct (raised_classes _ _ _ _ _ R) as [[Hc Hs] | [Hc | Hc]];
      [left; auto | right; right; left; auto | right; right; right; auto].
  - intros He Hs; split.
    + intros e s' R.
      destruct (V s eq_refl He Hs e s' R) as [-> | ->]; discriminate.
    + intros Ho.
      unfold Full.main; rewrite full_main_with_run.
      rewrite (full_banner_ok _ _ Ho); cbn [input output].
      destruct (Full.remove_background _ _ _) as [[p|e] s1] eqn:R.
      * now rewrite !(Ho _ (world s1)).
      * destruct (V _ (world_banner _ _) He Hs e s1 R) as [E | E].
        -- unfold exit_of in E.
           unfold Full.handled, Full.except_clauses; cbn [handler].
           destruct (isinstance e FileNotFoundError); [discriminate|].
           destruct (isinstance e ValueError).
           ++ unfold bind, Full.print_err, Full.write.
              destruct (write_error Stderr _ _); discriminate.
           ++ destruct (isinstance e Exception); discriminate.
        -- unfold exit_of in E.
           unfold Full.handled, Full.except_clauses; cbn [handler].
           destruct (isinstance e FileNotFoundError); [discriminate|].
           destruct (isinstance e ValueError); [discriminate|].
           destruct (isinstance e Exception); discriminate.
Qed.

End FullTheorems.

Section FullExtras.

Context {W Image : Type} {P : Platform W Image} {F : Faults W}.
Import Pathlib PathlibFacts ResolveFacts.

(** X2.  The platform calls of a run are a beginning of the six calls of
    a complete run, at least the first.  Each call is made only after
    the one before it answered: the input is opened only once it was
    found to be a regular file and the output path is resolved, the
    transform is begun only after the read returned, the decoding only
    after the transform returned, and the save only after the decoding
    returned.  [remove_background] prints nothing. *)
Theorem calls_in_order_of_steps
    input_path output_path (s : State W) r s' :
  Full.remove_background input_path output_path s = (r, s') ->
  exists n out,
    (1 <= n <= 6)%nat
    /\ events s' = (events s ++ firstn n (calls input_path out))%list
    /\ ((3 <= n)%nat ->
        stat_error (world s) (str (Path input_path)) = None
        /\ stat (world s) (str (Path input_path)) = Some Regular
        /\ resolve_output_path (Path input_path) output_path = Return out)
    /\ steps_returned input_path (world s) n
    /\ (forall p, r = Return p -> n = 6%nat /\ out = p)
    /\ stdout s' = stdout s /\ stderr s' = stderr s.
Proof.
  intros H.
  assert (early : forall n : nat,
            (1 <= n <= 2)%nat ->
            (exists e, r = Raise e) ->
            events s' = (events s ++ firstn n (calls input_path ""))%list ->
            stdout s' = stdout s -> stderr s' = stderr s ->
            exists n out,
              (1 <= n <= 6)%nat
              /\ events s' = (events s ++ firstn n (calls input_path out))%list
              /\ ((3 <= n)%nat ->
                  stat_error (world s) (str (Path input_path)) = None
                  /\ stat (world s) (str (Path input_path)) = Some Regular
                  /\ resolve_output_path (Path input_path) output_path
                     = Return out)
              /\ steps_returned input_path (world s) n
              /\ (forall p, r = Return p -> n = 6%nat /\ out = p)
              /\ stdout s' = stdout s /\ stderr s' = stderr s).
  { intros n Hn [e ->] Hev Ho He; exists n, "".
    split; [lia|]. split; [exact Hev|]. split; [lia|].
    split; [unfold steps_returned; lia|].
    split; [discriminate | now split]. }
  rewrite full_remove_background_eq in H.
  destruct (stat_error (world s) (str (Path input_path))) as [e0|] eqn:Se;
    [injection H as <- <-; apply (early 1%nat); eauto; lia|].
  destruct (stat (world s) (str (Path input_path))) as [k|] eqn:E.
  - assert (D : k = Regular \/ k <> Regular)
      by (destruct k; auto; right; discriminate).
    destruct D as [-> | Hk].
    + rewrite (remove_background_validated _ _ _ E) in H.
      destruct (resolve_output_path _ _) as [out|e] eqn:R;
        [|injection H as <- <-; apply (early 2%nat); eauto; lia].
      clear early; rewrite wrapped_run in H.
      destruct (process _ _ _) as [r1 s1] eqn:Ep.
      destruct (process_steps _ _ _ _ _ Ep) as (m & Hm & Hev & Hst & Ho & He).
      assert (Hs' : events s' = events s1 /\ stdout s' = stdout s1
                    /\ stderr s' = stderr s1
                    /\ forall p, r = Return p -> r1 = Return p).
      { destruct r1 as [q|e]; [injection H as <- <-; auto|].
        destruct (isinstance e Exception); injection H as <- <-;
          repeat split; discriminate. }
      destruct Hs' as (Hev' & Ho' & He' & Hr).
      exists (2 + m)%nat, out.
      split; [lia|]. split.
      { rewrite Hev', Hev; unfold validated, logged, calls; cbn.
        now rewrite <- app_assoc. }
      split; [auto|].
      split; [exact Hst|].
      split; [|split; [now rewrite Ho', Ho | now rewrite He', He]].
      intros p Hp; apply Hr in Hp; subst r1.
      pose proof (process_returns _ _ _ _ _ Ep) as ->.
      destruct (process_trace _ _ _ _ _ Ep) as (m' & _ & Hev2 & _ & _ & Hn).
      specialize (Hn out eq_refl); subst m'.
      rewrite Hev in Hev2; apply app_inv_head in Hev2.
      split; [|reflexivity].
      destruct m as [|[|[|[|[|m]]]]]; cbn in Hev2; try discriminate;
        try lia.
    + rewrite (remove_background_not_file _ _ _ _ E Hk) in H.
      injection H as <- <-; apply (early 2%nat); eauto; lia.
  - rewrite (remove_background_missing _ _ _ E) in H.
    injection H as <- <-; apply (early 1%nat); eauto; lia.
Qed.

(** X6.  What the exit codes of [main] mean where [os.stat] does not
    fail on the input path and no print raises: 1 exactly when the input
    path does not exist; 0 exactly when the input is a regular file, the
    output path resolves and all four steps return; 2 exactly when the
    input exists and is not a regular file, or the output path has no
    name to put a suffix on, or one of the four steps raises an error. *)
Theorem meaning_of_exit_codes args (s : State W) :
  Full.stdout_takes_all -> Full.stderr_takes_all ->
  stat_error (world s) (str (Path (input args))) = None ->
  let n := str (Path (input args)) in
  let resolved := resolve_output_path (Path (input args)) (output args) in
  (fst (Full.main args s) = Return 1 <-> stat (world s) n = None)
  /\ (fst (Full.main args s) = Return 0 <->
      stat (world s) n = Some Regular
      /\ exists out w',
           resolved = Return out
           /\ phase_success (input args) out (world s) w')
  /\ (fst (Full.main args s) = Return 2 <->
      (exists k, stat (world s) n = Some k /\ k <> Regular)
      \/ (stat (world s) n = Some Regular
          /\ ((exists e, resolved = Raise e)
              \/ exists out e w',
                   resolved = Return out
                   /\ phase_failure (input args) out (world s) e w'
                   /\ isinstance e Exception = true))).
Proof.
  intros Ho He Hs; rewrite (full_main_eq _ _ Ho He Hs).
  apply exit_code_meaning.
Qed.

(** X7.  Where no print raises, the verbose flag changes what is printed
    and nothing else: the exit code or escaping exception, the world and
    the platform calls are the same with and without it. *)
Theorem verbose_changes_prints_only input_path output_path (s : State W) :
  Full.stdout_takes_all -> Full.stderr_takes_all ->
  let loud := Full.main (mkArgs input_path output_path true) s in
  let quiet := Full.main (mkArgs input_path output_path false) s in
  fst loud = fst quiet
  /\ world (snd loud) = world (snd quiet)
  /\ events (snd loud) = events (snd quiet).
Proof.
  intros Ho He; cbn zeta.
  destruct (stat_error (world s) (str (Path input_path))) as [e|] eqn:Se.
  - unfold Full.main; rewrite !full_main_with_run.
    rewrite !(full_banner_ok _ _ Ho); cbn [input output].
    rewrite !full_remove_background_eq, !world_banner, Se.
    destruct (full_handled_ok (mkArgs input_path output_path true) e
                (logged [EvStat (str (Path input_path))]
                   (banner (mkArgs input_path output_path true) s)) He)
      as (A1 & A2 & A3 & _).
    destruct (full_handled_ok (mkArgs input_path output_path false) e
                (logged [EvStat (str (Path input_path))]
                   (banner (mkArgs input_path output_path false) s)) He)
      as (B1 & B2 & B3 & _).
    rewrite A1, A2, A3, B1, B2, B3; repeat split.
  - rewrite !full_main_eq by assumption.
    apply verbose_only_prints.
Qed.

(** X8.  What [main] prints where [os.stat] does not fail on the input
    path and no print raises.  When it returns 0, standard output gets
    the two success lines after the optional banner, the second naming
    the very path of the last platform call, the save, and standard
    error gets nothing.  When it returns 1 or 2, standard output gets
    the optional banner only and standard error one line that starts
    with [Error: ].  It returns no other code. *)
Theorem streams_of_main args (s : State W) code s' :
  Full.stdout_takes_all -> Full.stderr_takes_all ->
  stat_error (world s) (str (Path (input args))) = None ->
  Full.main args s = (Return code, s') ->
  (code = 0
   /\ exists p,
        stdout s'
        = (stdout (banner args s)
           ++ ["Background removed successfully!";
               ("Saved to: " ++ p)%string])%list
        /\ stderr s' = stderr s
        /\ events s' = (events s ++ calls (input args) p)%list)
  \/ ((code = 1 \/ code = 2)
      /\ stdout s' = stdout (banner args s)
      /\ exists m, stderr s' = (stderr s ++ [("Error: " ++ m)%string])%list).
Proof.
  intros Ho He Hs; rewrite (full_main_eq _ _ Ho He Hs).
  apply main_streams.
Qed.

End FullExtras.

Section FullScript.

Context {W Image : Type} {P : Platform W Image} {F : Faults W}.
Import Pathlib PathlibFacts ResolveFacts.

(** The handler of the script. *)
Lemma full_script_handler e :
  handler
    [(Exception,
      fun e : PyExc =>
        bind (Full.print_err ("Error: " ++ exc_msg e))
          (fun _ => sys_exit (A := unit) 1))] e
  = if isinstance e Exception
    then Some (bind (Full.print_err ("Error: " ++ exc_msg e))
                 (fun _ => sys_exit 1))
    else None.
Proof. reflexivity. Qed.

(** The script on at least two arguments, print by print. *)
Lemma full_script_run prog input_path rest (s : State W) :
  Full.script (prog :: input_path :: rest) s
  = match Full.remove_background input_path
            (match rest with [] => None | o :: _ => Some o end) s with
    | (Return p, s1) =>
        match write_error Stdout
                ("Background removed successfully! Saved to: " ++ p)
                (world s1) with
        | Some e => Full.script_caught e s1
        | None =>
            (Return tt,
             mkState (world s1) (events s1)
               (stdout s1
                ++ [("Background removed successfully! Saved to: "
                     ++ p)%string])%list
               (stderr s1))
        end
    | (Raise e, s1) => Full.script_caught e s1
    end.
Proof.
  assert (L : (Z.of_nat (length (prog :: input_path :: rest)) <? 2) = false)
    by (apply Z.ltb_ge; cbn [length]; lia).
  unfold Full.script, Full.script_caught.
  rewrite L, script_output_arg; cbn [nth].
  unfold bind at 1, ret at 1, try_except; rewrite ?full_script_handler.
  unfold bind at 1.
  destruct (Full.remove_background _ _ s) as [[p|e] s1].
  - unfold Full.print at 1, Full.write at 1.
    destruct (write_error Stdout _ (world s1)) as [e|]; [|reflexivity].
    rewrite full_script_handler.
    destruct (isinstance e Exception); [|reflexivity].
    unfold bind, Full.print_err, Full.write.
    destruct (write_error Stderr _ (world s1)); reflexivity.
  - rewrite full_script_handler.
    destruct (isinstance e Exception); [|reflexivity].
    unfold bind, Full.print_err, Full.write.
    destruct (write_error Stderr _ (world s1)); reflexivity.
Qed.

(** The clause ends the script by [SystemExit(1)] or lets go on what it
    does not catch, when its print succeeds; it never ends it
    normally. *)
Lemma script_caught_ends e (t : State W) :
  fst (Full.script_caught e t) <> Return tt
  /\ (Full.stderr_takes_all ->
      fst (Full.script_caught e t) = Raise (mkExc SystemExit "1")
      \/ exists e0, fst (Full.script_caught e t) = Raise e0
                    /\ isinstance e0 Exception = false).
Proof.
  unfold Full.script_caught.
  destruct (isinstance e Exception) eqn:Ei.
  - split; [destruct (write_error Stderr _ (world t)); discriminate|].
    intros He; rewrite (He ("Error: " ++ exc_msg e) (world t)); now left.
  - split; [discriminate | intros _; right].
    exists e; split; [reflexivity | exact Ei].
Qed.

Lemma full_script_short argv (s : State W) :
  (length argv < 2)%nat ->
  Full.script argv s
  = match write_error Stdout
            "Usage: python removebg.py <input_image> [output_image]"
            (world s) with
    | Some e => (Raise e, s)
    | None =>
        (Raise (mkExc SystemExit "1"),
         mkState (world s) (events s)
           (stdout s
            ++ ["Usage: python removebg.py <input_image> [output_image]"])
           %list
           (stderr s))
    end.
Proof.
  intros Hl.
  assert (L : (Z.of_nat (length argv) <? 2) = true)
    by (apply Z.ltb_lt; lia).
  unfold Full.script; rewrite L.
  unfold bind, Full.print, Full.write.
  destruct (write_error Stdout _ (world s)); reflexivity.
Qed.

(** X10.  The script ends normally exactly when it had an input
    argument, [remove_background] returned and the print of the success
    line did not raise.  Where the prints of the usage line and of the
    error line succeed, it otherwise ends by [SystemExit(1)], whatever
    the kind of error, or by an exception that is not an instance of
    [Exception]. *)
Theorem exit_status_of_script argv (s : State W) :
  let input_path := nth 1 argv "" in
  let output_path :=
    if 2 <? Z.of_nat (length argv) then Some (nth 2 argv "") else None in
  (fst (Full.script argv s) = Return tt <->
   (2 <= length argv)%nat
   /\ exists p s1,
        Full.remove_background input_path output_path s = (Return p, s1)
        /\ write_error Stdout
             ("Background removed successfully! Saved to: " ++ p) (world s1)
           = None)
  /\ (Full.stderr_takes_all ->
      ((length argv < 2)%nat ->
       write_error Stdout
         "Usage: python removebg.py <input_image> [output_image]" (world s)
       = None) ->
      fst (Full.script argv s) = Return tt
      \/ fst (Full.script argv s) = Raise (mkExc SystemExit "1")
      \/ exists e, fst (Full.script argv s) = Raise e
                   /\ isinstance e Exception = false).
Proof.
  cbn zeta.
  assert (short : (length argv < 2)%nat ->
            (fst (Full.script argv s) = Return tt <->
             (2 <= length argv)%nat
             /\ exists p s1,
                  Full.remove_background (nth 1 argv "")
                    (if 2 <? Z.of_nat (length argv)
                     then Some (nth 2 argv "") else None) s
                  = (Return p, s1)
                  /\ write_error Stdout
                       ("Background removed successfully! Saved to: " ++ p)
                       (world s1) = None)
            /\ (Full.stderr_takes_all ->
                ((length argv < 2)%nat ->
                 write_error Stdout
                   "Usage: python removebg.py <input_image> [output_image]"
                   (world s) = None) ->
                fst (Full.script argv s) = Return tt
                \/ fst (Full.script argv s) = Raise (mkExc SystemExit "1")
                \/ exists e, fst (Full.script argv s) = Raise e
                             /\ isinstance e Exception = false)).
  { intros Hl; rewrite (full_script_short _ _ Hl); split.
    - split; [|lia].
      destruct (write_error Stdout _ (world s)); discriminate.
    - intros _ Hu; rewrite (Hu Hl); right; now left. }
  destruct argv as [|prog [|input_path rest]];
    [apply short; cbn; lia | apply short; cbn; lia | clear short].
  rewrite script_output_arg, full_script_run; cbn [nth].
  destruct (Full.remove_background _ _ s) as [[p|e] s1].
  - destruct (write_error Stdout _ (world s1)) as [e|] eqn:Ew.
    + destruct (script_caught_ends e s1) as [N C]; split.
      * split; [intros H; now destruct N|].
        intros (_ & p' & s2 & [= <- <-] & Hw); congruence.
      * intros He _; right; exact (C He).
    + split; [|now left].
      split; [intros _; split; [cbn [length]; lia | eauto] | reflexivity].
  - destruct (script_caught_ends e s1) as [N C]; split.
    + split; [intros H; now destruct N|].
      now intros (_ & p' & s2 & [=] & _).
    + intros He _; right; exact (C He).
Qed.

End FullScript.

(** ** The properties with failing stat and prints, at concrete runs *)

Module FullExamples.
Import Pathlib ResolveFacts Toy ToyFaults.

Lemma none_takes_all :
  Full.stdout_takes_all (F := none) /\ Full.stderr_takes_all (F := none).
Proof. split; intros line w; reflexivity. Defined.

Lemma c_locale_stderr : Full.stderr_takes_all (F := posix_c_locale).
Proof. intros line w; reflexivity. Defined.

(** Two runs that the exit codes 0 to 3 of the claim leave out.  The
    collaborator is interrupted: [remove_background] raises
    [KeyboardInterrupt], neither of the two named classes, and [main]
    returns nothing.  And [remove_background] returns, the file is
    saved, but standard output cannot encode the path of the second
    success line: [main] returns 2. *)
Lemma interrupted_or_unprintable :
  (fst (Full.remove_background (P := interrupted) (F := none)
          "dir/photo.jpg" None boot)
   = Raise (mkExc KeyboardInterrupt "")
   /\ isinstance (mkExc KeyboardInterrupt "") FileNotFoundError = false
   /\ isinstance (mkExc KeyboardInterrupt "") ValueError = false
   /\ fst (Full.main (P := interrupted) (F := none)
             (mkArgs "dir/photo.jpg" None false) boot)
      = Raise (mkExc KeyboardInterrupt "")
   /\ fst (Full.main (P := interrupted) (F := none)
             (mkArgs "dir/photo.jpg" None false) boot)
      <> Return 3)
  /\ (fst (Full.remove_background (P := working) (F := posix_c_locale)
             "dir/photo.jpg" (Some cafe_png) boot)
      = Return cafe_png
      /\ fst (Full.main (P := working) (F := posix_c_locale)
                (mkArgs "dir/photo.jpg" (Some cafe_png) false) boot)
         = Return 2
      /\ fst (Full.main (P := working) (F := posix_c_locale)
                (mkArgs "dir/photo.jpg" (Some cafe_png) false) boot)
         <> Return 0).
Proof.
  repeat split; try (vm_compute; reflexivity); vm_compute; discriminate.
Qed.

Lemma exit_codes_of_main_witness :
  Full.stderr_takes_all (F := posix_c_locale)
  /\ fst (Full.main_with (F := posix_c_locale)
            (Full.remove_background (P := working) (F := posix_c_locale))
            (mkArgs "dir/photo.jpg" (Some cafe_png) true) boot)
     = exit_of (mkExc UnicodeError "'ascii' codec can't encode character")
  /\ fst (Full.main_with (F := posix_c_locale)
            (Full.remove_background (P := working) (F := posix_c_locale))
            (mkArgs "dir/photo.jpg" None true) boot)
     = Return 0.
Proof.
  split; [exact c_locale_stderr|]; split.
  - rewrite (exit_codes_of_main (F := posix_c_locale)
               (Full.remove_background (P := working)
                  (F := posix_c_locale))
               _ boot c_locale_stderr).
    vm_compute; reflexivity.
  - rewrite (exit_codes_of_main (F := posix_c_locale)
               (Full.remove_background (P := working)
                  (F := posix_c_locale))
               _ boot c_locale_stderr).
    vm_compute; reflexivity.
Defined.

(** Two input paths that name no entry and are not reported as not
    found.  The empty path, where [os.stat] finds nothing, is checked as
    the directory [.]: [ValueError], exit code 2.  A name of 256
    letters, where [os.stat] fails with ENAMETOOLONG: that [OSError] as
    it is, exit code 3. *)
Lemma unnamed_entries_not_reported_missing :
  (toy_stat [(".", Dir)] "" = None
   /\ fst (Full.remove_background (P := working) (F := posix_c_locale)
             "" None (mkState [(".", Dir)] [] [] []))
      = Raise (mkExc ValueError "Input path is not a file: ")
   /\ fst (Full.main (P := working) (F := posix_c_locale)
             (mkArgs "" None false) (mkState [(".", Dir)] [] [] []))
      = Return 2)
  /\ (toy_stat disk long_name = None
      /\ fst (Full.remove_background (P := working) (F := posix_c_locale)
                long_name None boot)
         = Raise (mkExc OSError "[Errno 36] File name too long")
      /\ fst (Full.main (P := working) (F := posix_c_locale)
                (mkArgs long_name None false) boot)
         = Return 3).
Proof. repeat split; vm_compute; reflexivity. Qed.

Lemma absent_input_not_found_witness :
  stat_error (Faults := posix_c_locale) (world boot) (str (Path "nope.jpg"))
  = None
  /\ stat (Platform := working) (world boot) (str (Path "nope.jpg")) = None
  /\ fst (Full.remove_background (P := working) (F := posix_c_locale)
            "nope.jpg" None boot)
     = Raise (mkExc FileNotFoundError "Input file not found: nope.jpg")
  /\ fst (Full.main (P := working) (F := posix_c_locale)
            (mkArgs "nope.jpg" None true) boot)
     = Return 1.
Proof.
  assert (E : stat_error (Faults := posix_c_locale) (world boot)
                (str (Path "nope.jpg")) = None) by reflexivity.
  assert (H : stat (Platform := working) (world boot) (str (Path "nope.jpg"))
              = None) by reflexivity.
  destruct (absent_input_not_found (P := working) (F := posix_c_locale)
              "nope.jpg" None true boot E H) as (R & _ & M).
  split; [exact E|]. split; [exact H|].
  split; [rewrite R; reflexivity|].
  exact (proj1 (M eq_refl eq_refl)).
Defined.

(** Two exceptions that leave [remove_background] and are neither
    [FileNotFoundError] nor [ValueError]: the [OSError] of a failed
    [os.stat], an error, on which [main] returns 3; and the interrupt of
    the collaborator, which the [try] block does not wrap. *)
Lemma stat_error_and_interrupt_pass :
  (fst (Full.remove_background (P := working) (F := posix_c_locale)
          long_name None boot)
   = Raise (mkExc OSError "[Errno 36] File name too long")
   /\ isinstance (mkExc OSError "[Errno 36] File name too long") Exception
      = true
   /\ OSError <> FileNotFoundError /\ OSError <> ValueError
   /\ fst (Full.main (P := working) (F := posix_c_locale)
             (mkArgs long_name None false) boot)
      = Return 3)
  /\ (phase_failure (P := interrupted) "dir/photo.jpg" "dir/photo_nobg.png"
        (world boot) (mkExc KeyboardInterrupt "") disk
      /\ fst (Full.remove_background (P := interrupted) (F := none)
                "dir/photo.jpg" None boot)
         = Raise (mkExc KeyboardInterrupt "")
      /\ KeyboardInterrupt <> ValueError
      /\ KeyboardInterrupt <> FileNotFoundError).
Proof.
  split.
  - repeat split; try discriminate; vm_compute; reflexivity.
  - split; [apply transform_failure with (data := photo) (w1 := disk);
            reflexivity|].
    split; [vm_compute; reflexivity|]. split; discriminate.
Qed.

Lemma exceptions_of_remove_background_witness :
  stat_error (Faults := none) (world boot) (str (Path "dir/photo.jpg"))
  = None
  /\ stat (Platform := vanishing) (world boot) (str (Path "dir/photo.jpg"))
     = Some Regular
  /\ phase_failure (P := vanishing) "dir/photo.jpg" "dir/photo_nobg.png"
       (world boot)
       (mkExc FileNotFoundError
          "[Errno 2] No such file or directory: 'dir/photo.jpg'") disk
  /\ fst (Full.remove_background (P := vanishing) (F := none)
            "dir/photo.jpg" None boot)
     = Raise (mkExc ValueError
                ("Failed to process image: "
                 ++ "[Errno 2] No such file or directory: 'dir/photo.jpg'"))
  /\ fst (Full.main (P := vanishing) (F := none)
            (mkArgs "dir/photo.jpg" None true) boot)
     <> Return 3.
Proof.
  assert (E : stat_error (Faults := none) (world boot)
                (str (Path "dir/photo.jpg")) = None) by reflexivity.
  assert (H : stat (Platform := vanishing) (world boot)
                (str (Path "dir/photo.jpg")) = Some Regular) by reflexivity.
  assert (Fl : phase_failure (P := vanishing) "dir/photo.jpg"
                 "dir/photo_nobg.png" (world boot)
                 (mkExc FileNotFoundError
                    "[Errno 2] No such file or directory: 'dir/photo.jpg'")
                 disk)
    by (apply read_failure; reflexivity).
  destruct (exceptions_of_remove_background (P := vanishing) (F := none)
              "dir/photo.jpg" None true boot) as (A & _ & C).
  split; [exact E|]. split; [exact H|]. split; [exact Fl|].
  split; [exact (A _ _ _ E H eq_refl Fl eq_refl)|].
  exact (proj2 (C E H) (proj1 none_takes_all)).
Defined.

Lemma calls_in_order_of_steps_witness :
  exists n out,
    (1 <= n <= 6)%nat
    /\ events (snd (Full.remove_background (P := working)
                      (F := posix_c_locale) "notes.txt" None boot))
       = (events boot ++ firstn n (calls "notes.txt" out))%list
    /\ ((3 <= n)%nat ->
        stat_error (Faults := posix_c_locale) (world boot)
          (str (Path "notes.txt")) = None
        /\ stat (Platform := working) (world boot) (str (Path "notes.txt"))
           = Some Regular
        /\ resolve_output_path (Path "notes.txt") None = Return out)
    /\ steps_returned (P := working) "notes.txt" (world boot) n
    /\ (forall p,
          fst (Full.remove_background (P := working) (F := posix_c_locale)
                 "notes.txt" None boot) = Return p ->
          n = 6%nat /\ out = p)
    /\ stdout (snd (Full.remove_background (P := working)
                      (F := posix_c_locale) "notes.txt" None boot))
       = stdout boot
    /\ stderr (snd (Full.remove_background (P := working)
                      (F := posix_c_locale) "notes.txt" None boot))
       = stderr boot.
Proof.
  apply (calls_in_order_of_steps (P := working) (F := posix_c_locale)
           "notes.txt" None boot).
  apply surjective_pairing.
Defined.

Lemma meaning_of_exit_codes_witness :
  Full.stdout_takes_all (F := none)
  /\ Full.stderr_takes_all (F := none)
  /\ stat_error (Faults := none) (world boot) (str (Path "nope.jpg")) = None
  /\ stat (Platform := working) (world boot) (str (Path "nope.jpg")) = None
  /\ fst (Full.main (P := working) (F := none)
            (mkArgs "nope.jpg" None true) boot) = Return 1.
Proof.
  assert (E : stat_error (Faults := none) (world boot)
                (str (Path "nope.jpg")) = None) by reflexivity.
  assert (H : stat (Platform := working) (world boot) (str (Path "nope.jpg"))
              = None) by reflexivity.
  split; [exact (proj1 none_takes_all)|].
  split; [exact (proj2 none_takes_all)|].
  split; [exact E|]. split; [exact H|].
  exact (proj2 (proj1 (meaning_of_exit_codes (P := working) (F := none)
                         (mkArgs "nope.jpg" None true) boot
                         (proj1 none_takes_all) (proj2 none_takes_all) E))
           H).
Defined.

Lemma verbose_changes_prints_only_witness :
  Full.stdout_takes_all (F := none)
  /\ Full.stderr_takes_all (F := none)
  /\ fst (Full.main (P := working) (F := none)
            (mkArgs "dir/photo.jpg" None true) boot)
     = fst (Full.main (P := working) (F := none)
              (mkArgs "dir/photo.jpg" None false) boot)
  /\ world (snd (Full.main (P := working) (F := none)
                   (mkArgs "dir/photo.jpg" None true) boot))
     = world (snd (Full.main (P := working) (F := none)
                     (mkArgs "dir/photo.jpg" None false) boot))
  /\ events (snd (Full.main (P := working) (F := none)
                    (mkArgs "dir/photo.jpg" None true) boot))
     = events (snd (Full.main (P := working) (F := none)
                      (mkArgs "dir/photo.jpg" None false) boot)).
Proof.
  split; [exact (proj1 none_takes_all)|].
  split; [exact (proj2 none_takes_all)|].
  exact (verbose_changes_prints_only (P := working) (F := none)
           "dir/photo.jpg" None boot
           (proj1 none_takes_all) (proj2 none_takes_all)).
Defined.

Lemma streams_of_main_witness :
  Full.stdout_takes_all (F := none)
  /\ Full.stderr_takes_all (F := none)
  /\ stat_error (Faults := none) (world boot) (str (Path "dir")) = None
  /\ Full.main (P := working) (F := none) (mkArgs "dir" None true) boot
     = (Return 2,
        snd (Full.main (P := working) (F := none) (mkArgs "dir" None true)
               boot))
  /\ ((2 = 1 \/ 2 = 2)
      /\ stdout (snd (Full.main (P := working) (F := none)
                        (mkArgs "dir" None true) boot))
         = stdout (banner (mkArgs "dir" None true) boot)
      /\ exists m,
           stderr (snd (Full.main (P := working) (F := none)
                          (mkArgs "dir" None true) boot))
           = (stderr boot ++ [("Error: " ++ m)%string])%list).
Proof.
  assert (E : stat_error (Faults := none) (world boot) (str (Path "dir"))
              = None) by reflexivity.
  assert (R : Full.main (P := working) (F := none) (mkArgs "dir" None true)
                boot
              = (Return 2,
                 snd (Full.main (P := working) (F := none)
                        (mkArgs "dir" None true) boot)))
    by (vm_compute; reflexivity).
  split; [exact (proj1 none_takes_all)|].
  split; [exact (proj2 none_takes_all)|].
  split; [exact E|]. split; [exact R|].
  destruct (streams_of_main (P := working) (F := none) _ _ _ _
              (proj1 none_takes_all) (proj2 none_takes_all) E R)
    as [[C _] | S]; [discriminate C | exact S].
Defined.

Lemma exit_status_of_script_witness :
  (2 <= length ["removebg.py"; "dir/photo.jpg"; cafe_png])%nat
  /\ Full.stderr_takes_all (F := posix_c_locale)
  /\ fst (Full.script (P := working) (F := posix_c_locale)
            ["removebg.py"; "dir/photo.jpg"; cafe_png] boot)
     <> Return tt
  /\ (fst (Full.script (P := working) (F := posix_c_locale)
             ["removebg.py"; "dir/photo.jpg"; cafe_png] boot) = Return tt
      \/ fst (Full.script (P := working) (F := posix_c_locale)
                ["removebg.py"; "dir/photo.jpg"; cafe_png] boot)
         = Raise (mkExc SystemExit "1")
      \/ exists e,
           fst (Full.script (P := working) (F := posix_c_locale)
                  ["removebg.py"; "dir/photo.jpg"; cafe_png] boot) = Raise e
           /\ isinstance e Exception = false).
Proof.
  assert (L : (2 <= length ["removebg.py"; "dir/photo.jpg"; cafe_png])%nat)
    by (cbn; lia).
  destruct (exit_status_of_script (P := working) (F := posix_c_locale)
              ["removebg.py"; "dir/photo.jpg"; cafe_png] boot) as [A B].
  split; [exact L|]. split; [exact c_locale_stderr|].
  split; [|apply (B c_locale_stderr); cbn; lia].
  intros H; apply (proj1 A) in H.
  destruct H as (_ & p & s1 & R & Hw).
  vm_compute in R; injection R as <- <-.
  vm_compute in Hw; discriminate Hw.
Defined.

End FullExamples.
